(** * Chat bubble content rendering: classification, HTML injection, artifacts, feedback

    A shallow embedding of the rendering logic of
    [src/components/bubbles/BotBubble.tsx] and
    [src/components/bubbles/AgentReasoningBubble.tsx].

    JavaScript strings are sequences of UTF-16 code units; they are modelled
    as lists of [N].  The string methods the components call ([trim],
    [startsWith], [includes], [replace], [lastIndexOf], [slice]) are given
    their ECMAScript meaning on such lists.  The browser's [DOMParser] and
    the markdown library are collaborators outside the repository: they are
    parameters of the render functions. *)

From Stdlib Require Import String Ascii.
From Stdlib Require Import List NArith ZArith Bool Lia.
From Equations Require Import Equations.
Import ListNotations.

Set Implicit Arguments.

(* ===================================================================== *)
(** ** JavaScript strings *)
(* ===================================================================== *)

Definition jsstring := list N.

(** An ASCII literal as a JavaScript string. *)
Definition js (s : string) : jsstring :=
  map N_of_ascii (list_ascii_of_string s).
Arguments js s%_string.

Definition jsstring_eqb (a b : jsstring) : bool :=
  if list_eq_dec N.eq_dec a b then true else false.

(** [s.startsWith(pat)] *)
Fixpoint startsWith (s pat : jsstring) : bool :=
  match pat with
  | [] => true
  | p :: pat' =>
      match s with
      | [] => false
      | c :: s' => N.eqb c p && startsWith s' pat'
      end
  end.

(** [s.includes(pat)] *)
Fixpoint includes (s pat : jsstring) : bool :=
  startsWith s pat ||
  match s with
  | [] => false
  | _ :: s' => includes s' pat
  end.

(** [s.indexOf(pat)], counting from [i]; -1 when [pat] does not occur. *)
Fixpoint indexFrom (s pat : jsstring) (i : Z) : Z :=
  if startsWith s pat then i
  else match s with
       | [] => (-1)%Z
       | _ :: s' => indexFrom s' pat (i + 1)
       end.

Definition indexOf (s pat : jsstring) : Z := indexFrom s pat 0.

(** [s.lastIndexOf(pat)], counting from [i]; -1 when [pat] does not occur. *)
Fixpoint lastIndexFrom (s pat : jsstring) (i : Z) : Z :=
  match s with
  | [] => if startsWith [] pat then i else (-1)%Z
  | _ :: s' =>
      let r := lastIndexFrom s' pat (i + 1) in
      if (0 <=? r)%Z then r
      else if startsWith s pat then i else (-1)%Z
  end.

Definition lastIndexOf (s pat : jsstring) : Z := lastIndexFrom s pat 0.

(** [s.slice(start, end)]: negative indices count from the end, both are
    clamped to the string. *)
Definition sliceIndex (len k : Z) : Z :=
  if (k <? 0)%Z then Z.max (len + k) 0 else Z.min k len.

Definition slice (s : jsstring) (start stop : Z) : jsstring :=
  let len := Z.of_nat (length s) in
  let from := sliceIndex len start in
  let to := sliceIndex len stop in
  firstn (Z.to_nat (Z.max (to - from) 0)) (skipn (Z.to_nat from) s).

(** [s.slice(start)] *)
Definition sliceFrom (s : jsstring) (start : Z) : jsstring :=
  slice s start (Z.of_nat (length s)).

(** White space and line terminators, the characters [trim] removes and
    the regular expression class [\s] matches. *)
Definition isWhiteSpace (c : N) : bool :=
  ((9 <=? c) && (c <=? 13) || (c =? 32) || (c =? 160) || (c =? 5760)
   || (8192 <=? c) && (c <=? 8202) || (c =? 8232) || (c =? 8233)
   || (c =? 8239) || (c =? 8287) || (c =? 12288) || (c =? 65279))%N.

Fixpoint trimStart (s : jsstring) : jsstring :=
  match s with
  | [] => []
  | c :: s' => if isWhiteSpace c then trimStart s' else s
  end.

Definition trimEnd (s : jsstring) : jsstring := rev (trimStart (rev s)).

(** [s.trim()] *)
Definition trim (s : jsstring) : jsstring := trimEnd (trimStart s).

(** Case folding of a regular expression with the [i] flag and no [u]
    flag: a code unit is compared through its upper case.  Only the ASCII
    letters are mapped; a code unit of 128 or more never folds to an ASCII
    one, so it is left as it is. *)
Definition canonicalize (c : N) : N :=
  if ((97 <=? c) && (c <=? 122))%N then (c - 32)%N else c.

Fixpoint startsWithIgnoreCase (s pat : jsstring) : bool :=
  match pat with
  | [] => true
  | p :: pat' =>
      match s with
      | [] => false
      | c :: s' =>
          N.eqb (canonicalize c) (canonicalize p) && startsWithIgnoreCase s' pat'
      end
  end.

(** [/^\s*<html[\s>]/i.test(s)].  The greedy [\s*] takes every leading
    white space character: giving one back leaves a white space where
    [<] is required. *)
Definition htmlTagRegExp_test (s : jsstring) : bool :=
  let t := trimStart s in
  startsWithIgnoreCase t (js "<html") &&
  match skipn 5 t with
  | [] => false
  | c :: _ => isWhiteSpace c || N.eqb c 62
  end.

(** Replacement text of [String.prototype.replace] for a pattern without
    capture groups: [$$] is a dollar sign, [$&] the matched text, [$`] what
    precedes the match, [$'] what follows it; any other dollar sign stands
    for itself. *)
Fixpoint GetSubstitution (matched str : jsstring) (position : nat)
    (replacement : jsstring) : jsstring :=
  match replacement with
  | [] => []
  | c :: r =>
      if N.eqb c 36 then
        match r with
        | [] => [c]
        | d :: r' =>
            if N.eqb d 36 then 36%N :: GetSubstitution matched str position r'
            else if N.eqb d 38 then matched ++ GetSubstitution matched str position r'
            else if N.eqb d 96 then
              firstn position str ++ GetSubstitution matched str position r'
            else if N.eqb d 39 then
              skipn (position + length matched) str
                ++ GetSubstitution matched str position r'
            else c :: GetSubstitution matched str position r
        end
      else c :: GetSubstitution matched str position r
  end.

(** [s.replace(pat, replacement)] with a string pattern: the first
    occurrence only. *)
Definition replace (s pat replacement : jsstring) : jsstring :=
  let pos := indexOf s pat in
  if (pos <? 0)%Z then s
  else
    let p := Z.to_nat pos in
    firstn p s ++ GetSubstitution pat s p replacement
           ++ skipn (p + length pat) s.

(** [str.replace(/pat/g, replacement)] for a regular expression whose
    source [pat] is literal text: every match, scanned left to right,
    matches not overlapping.  [position] is the index of [rest] in [str]. *)
Equations? replaceAllFrom (str pat replacement : jsstring) (position : nat)
    (rest : jsstring) : jsstring by wf (length rest) lt :=
  replaceAllFrom str pat replacement position [] :=
    if startsWith [] pat then GetSubstitution pat str position replacement
    else [];
  replaceAllFrom str pat replacement position (c :: rest') :=
    if startsWith (c :: rest') pat then
      GetSubstitution pat str position replacement ++
      match pat with
      | [] => c :: replaceAllFrom str pat replacement (S position) rest'
      | _ :: ps =>
          replaceAllFrom str pat replacement (position + length pat)
            (skipn (length ps) rest')
      end
    else c :: replaceAllFrom str pat replacement (S position) rest'.
Proof.
  all: simpl; try rewrite length_skipn; lia.
Qed.

Definition replaceAll (s pat replacement : jsstring) : jsstring :=
  replaceAllFrom s pat replacement 0 s.

(** Template literal interpolation of an optional string: [undefined]
    prints as the word. *)
Definition interpolate (v : option jsstring) : jsstring :=
  match v with
  | Some s => s
  | None => js "undefined"
  end.

(* ===================================================================== *)
(** ** Exceptions and effects *)
(* ===================================================================== *)

(** A thrown value; only its presence matters here. *)
Definition Exception := jsstring.

(** A computation that returns or throws. *)
Definition Result (A : Type) : Type := (Exception + A)%type.

Definition tryCatchResult {A} (body : Result A) (handler : Exception -> Result A)
  : Result A :=
  match body with
  | inl e => handler e
  | inr a => inr a
  end.

(** The parsed document, as far as the components look at it:
    [doc.body] may be absent. *)
Record HTMLBodyElement := { innerHTML : jsstring; textContent : jsstring }.
Record Document := { body : option HTMLBodyElement }.

(** [new DOMParser().parseFromString(content, 'text/html')] *)
Definition DOMParser := jsstring -> Result Document.

(** [Marked.setOptions] and [Marked.parse] of the markdown library. *)
Record MarkedOptions := { isNoP : bool; sanitize : bool }.
Definition Markdown := MarkedOptions -> jsstring -> jsstring.

(** What [setTimeout] is given. *)
Inductive Deferred :=
| WriteIframe (messageContent : jsstring)
| ResizeIframe.

(** What a render does to the bound element, to its iframe and to the
    console, in program order. *)
Inductive Effect :=
| SetInnerHTML (html : jsstring)
| SetTextContent (text : jsstring)
| SetElementStyle (property value : jsstring)
| AppendIframe (styles attributes : list (jsstring * jsstring))
| StyleColor (selector color : jsstring)
| StyleColorWithin (selector inner color : jsstring)
| LinkTarget (selector target : jsstring)
| SetTimeout (callback : Deferred) (delay : Z)
| ConsoleWarn (message : jsstring)
| SetBotMessageElement
| AppendDownloadButton (fileName : jsstring)
| IframeWrite (document : jsstring)
| IframeBodyStyle (property value : jsstring)
| IframeHtmlStyle (property value : jsstring)
| IframeStyle (property value : jsstring)
| IframeHeightPx (height : Z).

(** Effectful code: the effects so far are threaded through, and the
    computation returns or throws. *)
Definition M (A : Type) : Type := list Effect -> list Effect * Result A.

Definition mret {A} (a : A) : M A := fun log => (log, inr a).

Definition mbind {A B} (m : M A) (f : A -> M B) : M B :=
  fun log =>
    match m log with
    | (log', inl e) => (log', inl e)
    | (log', inr a) => f a log'
    end.

Definition emit (e : Effect) : M unit := fun log => (log ++ [e], inr tt).

Definition lift {A} (r : Result A) : M A := fun log => (log, r).

Definition tryCatch {A} (body : M A) (handler : Exception -> M A) : M A :=
  fun log =>
    match body log with
    | (log', inl e) => handler e log'
    | (log', inr a) => (log', inr a)
    end.

Fixpoint forEach {A} (l : list A) (f : A -> M unit) : M unit :=
  match l with
  | [] => mret tt
  | a :: l' => mbind (f a) (fun _ => forEach l' f)
  end.

Declare Scope js_scope.
Delimit Scope js_scope with js.
Notation "x <- m ;; k" := (mbind m (fun x => k))
  (at level 61, m at next level, right associativity) : js_scope.
Notation "m ;; k" := (mbind m (fun _ => k))
  (at level 61, right associativity) : js_scope.

(** The run of a render from an untouched element. *)
Definition run {A} (m : M A) : list Effect * Result A := m [].

(** JavaScript truthiness of an optional boolean. *)
Definition truthy (b : option bool) : bool :=
  match b with
  | Some true => true
  | _ => false
  end.

(** [v || d] for an optional string [v]: absent and empty are falsy. *)
Definition orElse (v : option jsstring) (d : jsstring) : jsstring :=
  match v with
  | Some (c :: s) => c :: s
  | _ => d
  end.

(** [v ?? d] *)
Definition nullish {A} (v : option A) (d : A) : A :=
  match v with
  | Some a => a
  | None => d
  end.

(* ===================================================================== *)
(** ** Content predicates, defined alike in both components *)
(* ===================================================================== *)

Definition isFullHTMLDocument (content : jsstring) : bool :=
  let trimmed := trim content in
  startsWith trimmed (js "<!DOCTYPE") || startsWith trimmed (js "<html")
  || htmlTagRegExp_test trimmed.

Definition isCompleteHTMLDocument (content : jsstring) : bool :=
  let hasClosingBody := includes content (js "</body>") in
  let hasClosingHtml := includes content (js "</html>") in
  hasClosingBody && hasClosingHtml.

Definition needsIframeRendering (content : jsstring) : bool :=
  let hasScript := includes content (js "<script") in
  let hasCanvas := includes content (js "<canvas") in
  let hasChartJS := includes content (js "chart.js") || includes content (js "Chart.js") in
  let hasInteractiveLib := includes content (js "d3.js") || includes content (js "plotly") in
  hasScript || hasCanvas || hasChartJS || hasInteractiveLib.

(** The hourglass of the loading indicator, U+23F3. *)
Definition hourglass : N := 9203.

Definition loadingContent : jsstring := js "Loading content... " ++ [hourglass].

Definition extractTextFromIncompleteHTML (parseFromString : DOMParser)
    (content : jsstring) : Result jsstring :=
  tryCatchResult
    (match parseFromString content with
     | inl e => inl e
     | inr doc =>
         let bodyText := orElse (option_map textContent (body doc)) [] in
         if (0 <? length (trim bodyText))%nat
         then inr (trim bodyText ++ js " " ++ [hourglass])
         else inr loadingContent
     end)
    (fun _ => inr loadingContent).

(** The four rendering strategies. *)
Inductive ContentClassification :=
| PlainMarkdown
| CompleteSimpleHTML
| CompleteRichHTML
| IncompleteHTML.

(** The guards of the render's [if] / [else if] chain, in their order. *)
Definition classify (renderHTML : option bool) (messageContent : jsstring)
  : ContentClassification :=
  if truthy renderHTML && isFullHTMLDocument messageContent
     && isCompleteHTMLDocument messageContent && needsIframeRendering messageContent
  then CompleteRichHTML
  else if truthy renderHTML && isFullHTMLDocument messageContent
          && isCompleteHTMLDocument messageContent
          && negb (needsIframeRendering messageContent)
  then CompleteSimpleHTML
  else if truthy renderHTML && isFullHTMLDocument messageContent
          && negb (isCompleteHTMLDocument messageContent)
  then IncompleteHTML
  else PlainMarkdown.

(* ===================================================================== *)
(** ** The document written into the iframe *)
(* ===================================================================== *)

Definition dq : jsstring := [34%N].

Definition cssOverrideLines : list jsstring :=
  [
    js "              <style id=" ++ dq ++ js "flowise-iframe-override" ++ dq ++ js ">";
    js "                * { box-sizing: border-box !important; }";
    js "                html { ";
    js "                  overflow: hidden !important; ";
    js "                  margin: 0 !important;";
    js "                  padding: 0 !important;";
    js "                }";
    js "                body { ";
    js "                  margin: 0 !important; ";
    js "                  padding: 15px !important; ";
    js "                  overflow: hidden !important;";
    js "                  box-sizing: border-box !important;";
    js "                }";
    js "                .chart-container,";
    js "                div[class*=" ++ dq ++ js "chart" ++ dq ++ js "],";
    js "                div[class*=" ++ dq ++ js "container" ++ dq ++ js "] { ";
    js "                  width: 100% !important; ";
    js "                  max-width: 100% !important;";
    js "                  margin-left: 0 !important;";
    js "                  margin-right: 0 !important;";
    js "                  padding: 0 5% !important;";
    js "                }";
    js "                canvas {";
    js "                  max-width: 100% !important;";
    js "                  width: 100% !important;";
    js "                }";
    js "                h1 {";
    js "                  margin-top: 10px !important;";
    js "                  text-align: center !important;";
    js "                  font-size: 1.5em !important;";
    js "                }";
    js "              </style>" ].

(** The template literal: a line feed before each line, and the indentation
    of the closing backquote at the end. *)
Definition cssOverride : jsstring :=
  concat (map (fun line => 10%N :: line) cssOverrideLines)
  ++ 10%N :: js "            ".

Definition insertCssOverride (messageContent : jsstring) : jsstring :=
  if includes messageContent (js "</head>") then
    replace messageContent (js "</head>") (cssOverride ++ js "</head>")
  else if includes messageContent (js "</style>") then
    let lastStyleIndex := lastIndexOf messageContent (js "</style>") in
    slice messageContent 0 (lastStyleIndex + 8) ++ cssOverride
      ++ sliceFrom messageContent (lastStyleIndex + 8)
  else if includes messageContent (js "<head>") then
    replace messageContent (js "<head>") (js "<head>" ++ cssOverride)
  else cssOverride ++ messageContent.

Definition replaceMapKey (modifiedContent : jsstring) : jsstring :=
  if includes modifiedContent (js "GOOGLE_MAP_KEY")
  then replaceAll modifiedContent (js "GOOGLE_MAP_KEY") (js "abc")
  else modifiedContent.

(** What [iframeDoc.write] receives. *)
Definition modifiedContent (messageContent : jsstring) : jsstring :=
  replaceMapKey (insertCssOverride messageContent).

(** The iframe as the render creates it. *)
Definition iframeStyles : list (jsstring * jsstring) :=
  [ (js "width", js "100%"); (js "border", js "none"); (js "outline", js "none");
    (js "display", js "block"); (js "overflow", js "hidden");
    (js "height", js "600px"); (js "backgroundColor", js "transparent");
    (js "opacity", js "0"); (js "transition", js "opacity 0.3s ease-in") ].

Definition iframeAttributes : list (jsstring * jsstring) :=
  [ (js "sandbox", js "allow-scripts allow-same-origin"); (js "scrolling", js "no") ].

(** The measures [resizeIframe] reads. *)
Record Heights := {
  bodyScrollHeight : Z; bodyOffsetHeight : Z;
  htmlScrollHeight : Z; htmlOffsetHeight : Z }.

(** [resizeIframe]: [probe] is the access to the iframe's document, which
    throws, finds no document or body, or gives the measures. *)
Definition resizeIframe (probe : Result (option Heights)) : M unit :=
  (tryCatch
     (found <- lift probe ;;
      match found with
      | None => mret tt
      | Some h =>
          emit (IframeBodyStyle (js "margin") (js "0")) ;;
          emit (IframeBodyStyle (js "padding") (js "10px")) ;;
          emit (IframeBodyStyle (js "overflow") (js "hidden")) ;;
          emit (IframeBodyStyle (js "boxSizing") (js "border-box")) ;;
          emit (IframeHtmlStyle (js "overflow") (js "hidden")) ;;
          let height :=
            Z.max (bodyScrollHeight h)
              (Z.max (bodyOffsetHeight h)
                 (Z.max (htmlScrollHeight h) (Z.max (htmlOffsetHeight h) 500))) in
          emit (IframeHeightPx height) ;;
          emit (IframeStyle (js "opacity") (js "1"))
      end)
     (fun _ =>
        emit (ConsoleWarn (js "Could not resize iframe:")) ;;
        emit (IframeStyle (js "opacity") (js "1"))))%js.

(** The callbacks given to [setTimeout]; [iframeDoc] tells whether the
    iframe's document is there when the first one runs. *)
Definition runDeferred (iframeDoc : bool) (probe : Result (option Heights))
    (d : Deferred) : M unit :=
  (match d with
   | WriteIframe messageContent =>
       if iframeDoc then
         emit (IframeWrite (modifiedContent messageContent)) ;;
         emit (SetTimeout ResizeIframe 2000)
       else mret tt
   | ResizeIframe => resizeIframe probe
   end)%js.

(** An artifact of a message ([Partial<FileUpload>]). *)
Record FileUpload := { type : option jsstring; data : option jsstring }.

Definition typeIs (item : FileUpload) (t : jsstring) : bool :=
  match type item with
  | Some s => jsstring_eqb s t
  | None => false
  end.

Definition uploadFileURL (apiHost : option jsstring) (chatflowid chatId fileName : jsstring)
  : jsstring :=
  interpolate apiHost ++ js "/api/v1/get-upload-file?chatflowId=" ++ chatflowid
    ++ js "&chatId=" ++ chatId ++ js "&fileName=" ++ fileName.

Definition defaultTextColor : jsstring := js "#303235".

Definition storagePrefix : jsstring := js "FILE-STORAGE::".

Definition markdownSelectors : jsstring :=
  js "a, h1, h2, h3, h4, h5, h6, strong, em, blockquote, li".

Definition sanitizeOption (renderHTML : option bool) : bool :=
  match renderHTML with
  | Some b => negb b
  | None => true
  end.

Inductive FeedbackRatingType := THUMBS_UP | THUMBS_DOWN.

(** What an artifact is rendered as. *)
Inductive ArtifactView :=
| Image (src : option jsstring)
| HtmlBlock (html : option jsstring)
| MarkdownSpan (html : option jsstring).

Module MessageType.

Record t := {
  message : jsstring;
  messageId : option jsstring;
  rating : option FeedbackRatingType;
  artifacts : option (list (option FileUpload)) }.

End MessageType.

(* ===================================================================== *)
(** ** BotBubble.tsx *)
(* ===================================================================== *)

Module BotBubble.

Record FileAnnotation := { fileName : jsstring }.

Record Props := {
  message : MessageType.t;
  chatflowid : jsstring;
  chatId : jsstring;
  apiHost : option jsstring;
  fileAnnotations : option (list FileAnnotation);
  textColor : option jsstring;
  chatFeedbackStatus : option bool;
  feedbackColor : option jsstring;
  renderHTML : option bool }.

Definition defaultFeedbackColor : jsstring := js "#3B81F6".

Section Render.

Variable parseFromString : DOMParser.
Variable Marked_parse : Markdown.
Variable props : Props.

Definition markedOptions : MarkedOptions :=
  {| isNoP := true; sanitize := sanitizeOption (renderHTML props) |}.

(** [setBotMessageRef], for a bound element. *)
Definition setBotMessageRef : M unit :=
  (let messageContent := MessageType.message (message props) in
   match classify (renderHTML props) messageContent with
   | CompleteRichHTML =>
       emit (SetInnerHTML []) ;;
       emit (SetElementStyle (js "overflow") (js "hidden")) ;;
       emit (AppendIframe iframeStyles iframeAttributes) ;;
       emit (SetTimeout (WriteIframe messageContent) 0) ;;
       emit SetBotMessageElement
   | CompleteSimpleHTML =>
       tryCatch
         (doc <- lift (parseFromString messageContent) ;;
          let bodyContent := orElse (option_map innerHTML (body doc)) messageContent in
          emit (SetInnerHTML bodyContent) ;;
          let textColor := nullish (textColor props) defaultTextColor in
          emit (StyleColor (js "a, h1, h2, h3, h4, h5, h6, strong, em, blockquote, li, p")
                  textColor) ;;
          emit (LinkTarget (js "a") (js "_blank")))
         (fun e =>
            emit (ConsoleWarn (js "Failed to parse HTML, falling back to markdown:")) ;;
            emit (SetInnerHTML (Marked_parse markedOptions messageContent))) ;;
       emit SetBotMessageElement
   | IncompleteHTML =>
       extractedText <- lift (extractTextFromIncompleteHTML parseFromString messageContent) ;;
       emit (SetTextContent extractedText) ;;
       emit SetBotMessageElement
   | PlainMarkdown =>
       emit (SetInnerHTML (Marked_parse markedOptions messageContent)) ;;
       let textColor := nullish (textColor props) defaultTextColor in
       emit (StyleColor markdownSelectors textColor) ;;
       emit (StyleColor (js "pre") (js "#FFFFFF")) ;;
       emit (StyleColorWithin (js "pre") (js "code") (js "#FFFFFF")) ;;
       emit (StyleColor (js "code:not(pre code)") (js "#4CAF50")) ;;
       emit (LinkTarget (js "a") (js "_blank")) ;;
       emit SetBotMessageElement
   end ;;
   match fileAnnotations props with
   | Some annotations =>
       forEach annotations (fun a => emit (AppendDownloadButton (fileName a)))
   | None => mret tt
   end)%js.

(** The [src] of an image artifact. *)
Definition imageSrc (item : FileUpload) : option jsstring :=
  match data item with
  | Some d =>
      let isFileStorage := startsWith d (js "FILE-STORAGE::") in
      if isFileStorage
      then Some (uploadFileURL (apiHost props) (chatflowid props) (chatId props)
                   (replace d (js "FILE-STORAGE::") []))
      else Some d
  | None => None
  end.

(** [renderArtifacts]: three [Show] blocks, one after the other. *)
Definition renderArtifacts (item : FileUpload) : list ArtifactView :=
  (if typeIs item (js "png") || typeIs item (js "jpeg")
   then [Image (imageSrc item)] else [])
  ++ (if typeIs item (js "html") then [HtmlBlock (data item)] else [])
  ++ (if negb (typeIs item (js "png")) && negb (typeIs item (js "jpeg"))
         && negb (typeIs item (js "html"))
      then [MarkdownSpan (option_map (Marked_parse markedOptions) (data item))]
      else []).

End Render.

(** *** Feedback *)

(** The signals of the component; [rating] is [None] for the empty string.
    [pending] holds the feedback requests sent and not yet answered, one
    per click that passed the guard; [saved] the ratings handed to
    [saveToLocalStorage]. *)
Record FeedbackState := {
  rating : option FeedbackRatingType;
  feedbackId : jsstring;
  showFeedbackContentDialog : bool;
  thumbsUpColor : jsstring;
  thumbsDownColor : jsstring;
  pending : list FeedbackRatingType;
  saved : list FeedbackRatingType }.

(** The answer of [sendFeedbackQuery]: the promise rejects, or the result
    has no [data], or it has, with or without an [id]. *)
Inductive FeedbackResponse :=
| Rejected
| NoData
| Data (id : option jsstring).

Inductive Event :=
| ThumbsUpClick
| ThumbsDownClick
| Answer (request : nat) (response : FeedbackResponse)
| FeedbackContentSubmitted (accepted : bool)
| DialogClosed.

Definition createState (props : Props) : FeedbackState :=
  {| rating := None;
     feedbackId := [];
     showFeedbackContentDialog := false;
     thumbsUpColor := nullish (feedbackColor props) defaultFeedbackColor;
     thumbsDownColor := nullish (feedbackColor props) defaultFeedbackColor;
     pending := [];
     saved := [] |}.

(** The rating of the message, taken over when the element is bound. *)
Definition mountRating (props : Props) (s : FeedbackState) : FeedbackState :=
  match MessageType.rating (message props) with
  | Some THUMBS_UP =>
      {| rating := Some THUMBS_UP; feedbackId := feedbackId s;
         showFeedbackContentDialog := showFeedbackContentDialog s;
         thumbsUpColor := js "#006400"; thumbsDownColor := thumbsDownColor s;
         pending := pending s; saved := saved s |}
  | Some THUMBS_DOWN =>
      {| rating := Some THUMBS_DOWN; feedbackId := feedbackId s;
         showFeedbackContentDialog := showFeedbackContentDialog s;
         thumbsUpColor := thumbsUpColor s; thumbsDownColor := js "#8B0000";
         pending := pending s; saved := saved s |}
  | None => s
  end.

(** The state once the component is set up.  The rating of the message is
    taken over in [setBotMessageRef], the [ref] of a span that is rendered
    only when the text of the message is not empty. *)
Definition initialState (props : Props) : FeedbackState :=
  match MessageType.message (message props) with
  | [] => createState props
  | _ :: _ => mountRating props (createState props)
  end.

(** The part of a click handler before its [await]. *)
Definition onClick (r : FeedbackRatingType) (s : FeedbackState) : FeedbackState :=
  match rating s with
  | None =>
      {| rating := rating s; feedbackId := feedbackId s;
         showFeedbackContentDialog := showFeedbackContentDialog s;
         thumbsUpColor := thumbsUpColor s; thumbsDownColor := thumbsDownColor s;
         pending := pending s ++ [r]; saved := saved s |}
  | Some _ => s
  end.

Definition onThumbsUpClick : FeedbackState -> FeedbackState := onClick THUMBS_UP.
Definition onThumbsDownClick : FeedbackState -> FeedbackState := onClick THUMBS_DOWN.

(** The part of a click handler after its [await]. *)
Definition onAnswer (r : FeedbackRatingType) (response : FeedbackResponse)
    (s : FeedbackState) : FeedbackState :=
  match response with
  | Data id =>
      {| rating := Some r;
         feedbackId := orElse id [];
         showFeedbackContentDialog := true;
         thumbsUpColor :=
           match r with THUMBS_UP => js "#006400" | THUMBS_DOWN => thumbsUpColor s end;
         thumbsDownColor :=
           match r with THUMBS_UP => thumbsDownColor s | THUMBS_DOWN => js "#8B0000" end;
         pending := pending s;
         saved := saved s ++ [r] |}
  | _ => s
  end.

Fixpoint removeAt {A} (i : nat) (l : list A) : list A :=
  match l, i with
  | [], _ => []
  | _ :: l', O => l'
  | a :: l', S i' => a :: removeAt i' l'
  end.

Definition step (s : FeedbackState) (e : Event) : FeedbackState :=
  match e with
  | ThumbsUpClick => onThumbsUpClick s
  | ThumbsDownClick => onThumbsDownClick s
  | Answer i response =>
      match nth_error (pending s) i with
      | Some r =>
          onAnswer r response
            {| rating := rating s; feedbackId := feedbackId s;
               showFeedbackContentDialog := showFeedbackContentDialog s;
               thumbsUpColor := thumbsUpColor s; thumbsDownColor := thumbsDownColor s;
               pending := removeAt i (pending s); saved := saved s |}
      | None => s
      end
  | FeedbackContentSubmitted true =>
      {| rating := rating s; feedbackId := [];
         showFeedbackContentDialog := false;
         thumbsUpColor := thumbsUpColor s; thumbsDownColor := thumbsDownColor s;
         pending := pending s; saved := saved s |}
  | FeedbackContentSubmitted false => s
  | DialogClosed =>
      {| rating := rating s; feedbackId := feedbackId s;
         showFeedbackContentDialog := false;
         thumbsUpColor := thumbsUpColor s; thumbsDownColor := thumbsDownColor s;
         pending := pending s; saved := saved s |}
  end.

Definition runEvents (s : FeedbackState) (es : list Event) : FeedbackState :=
  fold_left step es s.

(** The states met along a run, the first one included. *)
Fixpoint trace (s : FeedbackState) (es : list Event) : list FeedbackState :=
  match es with
  | [] => [s]
  | e :: es' => s :: trace (step s e) es'
  end.

(** How often the rating leaves the empty state along a list of states. *)
Fixpoint leavesEmpty (states : list FeedbackState) : nat :=
  match states with
  | s :: ((s' :: _) as rest) =>
      (match rating s, rating s' with
       | None, Some _ => 1
       | _, _ => 0
       end + leavesEmpty rest)%nat
  | _ => 0%nat
  end.

(** *** The layout of the host bubble *)

(** [isHTMLContent]: the bubble takes the full width, without padding or
    background, when this holds. *)
Definition isHTMLContent (props : Props) : bool :=
  let messageContent := orElse (Some (MessageType.message (message props))) [] in
  truthy (renderHTML props) && isFullHTMLDocument messageContent.

(** *** The feedback buttons *)

(** The buttons are rendered under
    [props.chatFeedbackStatus && props.message.messageId]. *)
Definition feedbackShown (props : Props) : bool :=
  truthy (chatFeedbackStatus props)
  && match MessageType.messageId (message props) with
     | Some (_ :: _) => true
     | _ => false
     end.

(** The thumbs up button, when shown: its colour and whether it is
    disabled. *)
Definition thumbsUpButton (props : Props) (s : FeedbackState)
  : option (jsstring * bool) :=
  if feedbackShown props then
    match rating s with
    | None => Some (thumbsUpColor s, false)
    | Some THUMBS_UP => Some (thumbsUpColor s, true)
    | Some THUMBS_DOWN => None
    end
  else None.

Definition thumbsDownButton (props : Props) (s : FeedbackState)
  : option (jsstring * bool) :=
  if feedbackShown props then
    match rating s with
    | None => Some (thumbsDownColor s, false)
    | Some THUMBS_DOWN => Some (thumbsDownColor s, true)
    | Some THUMBS_UP => None
    end
  else None.

(** *** The rating kept in local storage *)

(** The stored chat details once parsed: the history, when there is one,
    and whatever else the object holds. *)
Record ChatDetails := {
  chatHistory : option (list MessageType.t);
  otherDetails : jsstring }.

(** [localStorage]: [getItem] gives [None] for a missing key. *)
Definition Storage := jsstring -> option jsstring.

Definition setItem (key value : jsstring) (storage : Storage) : Storage :=
  fun k => if jsstring_eqb k key then Some value else storage k.

(** [a === b] on two message ids, either of which may be undefined. *)
Definition sameId (a b : option jsstring) : bool :=
  match a, b with
  | Some x, Some y => jsstring_eqb x y
  | None, None => true
  | _, _ => false
  end.

Definition withRating (msg : MessageType.t) (r : FeedbackRatingType) : MessageType.t :=
  {| MessageType.message := MessageType.message msg;
     MessageType.messageId := MessageType.messageId msg;
     MessageType.rating := Some r;
     MessageType.artifacts := MessageType.artifacts msg |}.

(** [messages.find(...)] followed by the assignment to the message found:
    [None] when [find] gives [undefined]. *)
Fixpoint rateFound (messageId : option jsstring) (r : FeedbackRatingType)
    (messages : list MessageType.t) : option (list MessageType.t) :=
  match messages with
  | [] => None
  | msg :: rest =>
      if sameId (MessageType.messageId msg) messageId
      then Some (withRating msg r :: rest)
      else option_map (cons msg) (rateFound messageId r rest)
  end.

Section LocalStorage.

(** [JSON.parse], which throws on a text that is not JSON (a text that is
    JSON for something without properties makes the next line throw, into
    the same handler), and [JSON.stringify]. *)
Variable JSON_parse : jsstring -> Result ChatDetails.
Variable JSON_stringify : ChatDetails -> jsstring.

Definition storageKey (props : Props) : jsstring :=
  chatflowid props ++ js "_EXTERNAL".

Definition saveToLocalStorage (props : Props) (r : FeedbackRatingType)
    (storage : Storage) : Storage :=
  match storage (storageKey props) with
  | None => storage
  | Some [] => storage
  | Some chatDetails =>
      match JSON_parse chatDetails with
      | inl _ => storage
      | inr parsedDetails =>
          let messages := nullish (chatHistory parsedDetails) [] in
          match rateFound (MessageType.messageId (message props)) r messages with
          | None => storage
          | Some messages' =>
              setItem (storageKey props)
                (JSON_stringify {| chatHistory := Some messages';
                                   otherDetails := otherDetails parsedDetails |})
                storage
          end
      end
  end.

End LocalStorage.

(** *** Source documents *)

(** What [new URL(url)] gives, as far as the component reads it. *)
Record URL := { pathname : jsstring }.

Record Metadata := { source : jsstring }.

Record SourceDocument := { metadata : Metadata; pageContent : jsstring }.

(** What a click on a source bubble does. *)
Inductive SourceClick :=
| WindowOpen (url target : jsstring)
| HandleSourceDocumentsClick (src : SourceDocument).

Section SourceDocuments.

(** The constructor [new URL(url)], which throws on what is no URL. *)
Variable newURL : jsstring -> Result URL.

Definition isValidURL (url : jsstring) : option URL :=
  match newURL url with
  | inr u => Some u
  | inl _ => None
  end.

Definition isSome {A} (v : option A) : bool :=
  match v with
  | Some _ => true
  | None => false
  end.

(** [visitedURLs.includes(url)] on an array of strings. *)
Definition arrayIncludes (visitedURLs : list jsstring) (url : jsstring) : bool :=
  existsb (jsstring_eqb url) visitedURLs.

(** The [forEach] of [removeDuplicateURL], with its two arrays. *)
Fixpoint removeDuplicateURL_forEach (sourceDocuments : list SourceDocument)
    (visitedURLs : list jsstring) (newSourceDocuments : list SourceDocument)
  : list SourceDocument :=
  match sourceDocuments with
  | [] => newSourceDocuments
  | src :: rest =>
      let url := source (metadata src) in
      if isSome (isValidURL url) && negb (arrayIncludes visitedURLs url) then
        removeDuplicateURL_forEach rest (visitedURLs ++ [url])
          (newSourceDocuments ++ [src])
      else if negb (isSome (isValidURL url)) then
        removeDuplicateURL_forEach rest visitedURLs (newSourceDocuments ++ [src])
      else removeDuplicateURL_forEach rest visitedURLs newSourceDocuments
  end.

(** [removeDuplicateURL], given the [sourceDocuments] of the message. *)
Definition removeDuplicateURL (sourceDocuments : list SourceDocument)
  : list SourceDocument :=
  removeDuplicateURL_forEach sourceDocuments [] [].

(** A source bubble: the text it shows and what a click on it does. *)
Definition sourceBubble (src : SourceDocument) : jsstring * SourceClick :=
  match isValidURL (source (metadata src)) with
  | Some url => (pathname url, WindowOpen (source (metadata src)) (js "_blank"))
  | None => (pageContent src, HandleSourceDocumentsClick src)
  end.

Definition sourceBubbles (sourceDocuments : list SourceDocument)
  : list (jsstring * SourceClick) :=
  map sourceBubble (removeDuplicateURL sourceDocuments).

End SourceDocuments.

(** *** The message of an agent *)

Record AgentReasoning := {
  instructions : option jsstring;
  messages : option (list jsstring) }.

(** JavaScript truthiness of an optional string. *)
Definition truthyString (v : option jsstring) : bool :=
  match v with
  | Some (_ :: _) => true
  | _ => false
  end.

(** [array.join(separator)] on strings. *)
Fixpoint join (separator : jsstring) (l : list jsstring) : jsstring :=
  match l with
  | [] => []
  | [x] => x
  | x :: rest => x ++ separator ++ join separator rest
  end.

(** The [agentMessage] handed to [AgentReasoningBubble]; the separator of
    [join] is a backslash followed by the letter n. *)
Definition msgContent (agent : AgentReasoning) : option jsstring :=
  let agentMessages := nullish (messages agent) [] in
  let msgContent :=
    match instructions agent with
    | Some (c :: s) => Some (c :: s)
    | _ =>
        if (1 <? length agentMessages)%nat
        then Some (join [92; 110]%N agentMessages)
        else nth_error agentMessages 0
    end in
  if (length agentMessages =? 0)%nat && negb (truthyString (instructions agent))
  then Some (js "<p>Finished</p>")
  else msgContent.

End BotBubble.

(* ===================================================================== *)
(** ** AgentReasoningBubble.tsx *)
(* ===================================================================== *)

Module AgentReasoningBubble.

Record Props := {
  apiHost : option jsstring;
  chatflowid : jsstring;
  chatId : jsstring;
  agentName : jsstring;
  agentMessage : jsstring;
  agentArtifacts : option (list (option FileUpload));
  textColor : option jsstring;
  renderHTML : option bool }.

Section Render.

Variable parseFromString : DOMParser.
Variable Marked_parse : Markdown.
Variable props : Props.

Definition markedOptions : MarkedOptions :=
  {| isNoP := true; sanitize := sanitizeOption (renderHTML props) |}.

(** The check mark, U+2705. *)
Definition checkMark : N := 9989.

(** [**✅ ${props.agentName}** ] *)
Definition heading : jsstring :=
  js "**" ++ [checkMark] ++ js " " ++ agentName props ++ js "** ".

(** Whether [botMessageEl] is bound: the span it refers to is rendered
    under [props.agentMessage], that is for a message that is not empty. *)
Definition botMessageEl : bool :=
  match agentMessage props with
  | [] => false
  | _ :: _ => true
  end.

(** The callback of [onMount]. *)
Definition onMount : M unit :=
  (if botMessageEl then
   let messageContent := agentMessage props in
   match classify (renderHTML props) messageContent with
   | CompleteRichHTML =>
       emit (SetInnerHTML []) ;;
       emit (AppendIframe iframeStyles iframeAttributes) ;;
       emit (SetTimeout (WriteIframe messageContent) 0)
   | CompleteSimpleHTML =>
       tryCatch
         (doc <- lift (parseFromString messageContent) ;;
          let bodyContent := orElse (option_map innerHTML (body doc)) messageContent in
          emit (SetInnerHTML (heading ++ js "<br/><br/>" ++ bodyContent)) ;;
          emit (LinkTarget (js "a") (js "_blank")))
         (fun e =>
            emit (ConsoleWarn (js "Failed to parse HTML, falling back to markdown:")) ;;
            emit (SetInnerHTML
                    (Marked_parse markedOptions
                       (heading ++ [10; 10]%N ++ messageContent))))
   | IncompleteHTML =>
       extractedText <- lift (extractTextFromIncompleteHTML parseFromString messageContent) ;;
       emit (SetInnerHTML (heading ++ js "<br/><br/>" ++ extractedText))
   | PlainMarkdown =>
       emit (SetInnerHTML
               (Marked_parse markedOptions (heading ++ [10; 10]%N ++ messageContent))) ;;
       emit (LinkTarget (js "a") (js "_blank"))
   end
   else mret tt)%js.

(** [agentReasoningArtifacts]: the loop over a copy of the artifacts.
    [data.replace] on an absent [data] throws. *)
Fixpoint agentReasoningArtifacts (artifacts : list (option FileUpload))
  : Result (list (option FileUpload)) :=
  match artifacts with
  | [] => inr []
  | artifact :: rest =>
      match
        match artifact with
        | Some a =>
            if typeIs a (js "png") || typeIs a (js "jpeg") then
              match data a with
              | Some d =>
                  inr (Some {| type := type a;
                               data := Some (uploadFileURL (apiHost props)
                                               (chatflowid props) (chatId props)
                                               (replace d (js "FILE-STORAGE::") [])) |})
              | None => inl (js "TypeError")
              end
            else inr (Some a)
        | None => inr None
        end
      with
      | inl e => inl e
      | inr artifact' =>
          match agentReasoningArtifacts rest with
          | inl e => inl e
          | inr rest' => inr (artifact' :: rest')
          end
      end
  end.

Definition renderArtifacts (item : FileUpload) : ArtifactView :=
  if typeIs item (js "png") || typeIs item (js "jpeg") then Image (data item)
  else if typeIs item (js "html") then HtmlBlock (data item)
  else MarkdownSpan (option_map (Marked_parse markedOptions) (data item)).

(** The artifacts as the component shows them: rewritten, then rendered,
    a null entry giving nothing. *)
Definition artifactViews : Result (list (option ArtifactView)) :=
  match agentArtifacts props with
  | None => inr []
  | Some artifacts =>
      match agentReasoningArtifacts artifacts with
      | inl e => inl e
      | inr items => inr (map (option_map renderArtifacts) items)
      end
  end.

End Render.

End AgentReasoningBubble.

(* ===================================================================== *)
(** ** Sample collaborators *)
(* ===================================================================== *)

(** Documents a browser builds for a few inputs: the body's serialisation
    and its text.  Character references are decoded in the text. *)
Definition sampleDocuments : list (jsstring * Document) :=
  [ (js "<html><body><p>hi</p></body></html>",
     {| body := Some {| innerHTML := js "<p>hi</p>"; textContent := js "hi" |} |});
    (js "<html><body>&lt;script&gt;",
     {| body := Some {| innerHTML := js "&lt;script&gt;";
                        textContent := js "<script>" |} |});
    (js "<html><body><p>Total: 42",
     {| body := Some {| innerHTML := js "<p>Total: 42</p>";
                        textContent := js "Total: 42" |} |});
    (js "<html><head></head></body></html>",
     {| body := Some {| innerHTML := []; textContent := [] |} |}) ].

Fixpoint lookupDocument (table : list (jsstring * Document)) (content : jsstring)
  : option Document :=
  match table with
  | [] => None
  | (input, doc) :: table' =>
      if jsstring_eqb input content then Some doc else lookupDocument table' content
  end.

(** A parser that answers from [sampleDocuments], and with a document
    without body elsewhere. *)
Definition sampleParser : DOMParser :=
  fun content =>
    match lookupDocument sampleDocuments content with
    | Some doc => inr doc
    | None => inr {| body := None |}
    end.

(** A parser that throws on every input. *)
Definition failingParser : DOMParser := fun _ => inl (js "SyntaxError").

(** A markdown renderer that wraps its input, for runs on examples. *)
Definition sampleMarked : Markdown :=
  fun _ src => js "<md>" ++ src ++ js "</md>".

Definition sampleBotProps (renderHTML : option bool) (content : jsstring)
  : BotBubble.Props :=
  {| BotBubble.message :=
       {| MessageType.message := content; MessageType.messageId := Some (js "m1");
          MessageType.rating := None; MessageType.artifacts := None |};
     BotBubble.chatflowid := js "cf";
     BotBubble.chatId := js "c1";
     BotBubble.apiHost := Some (js "http://localhost:3000");
     BotBubble.fileAnnotations := None;
     BotBubble.textColor := None;
     BotBubble.chatFeedbackStatus := Some true;
     BotBubble.feedbackColor := None;
     BotBubble.renderHTML := renderHTML |}.

Definition sampleAgentProps (renderHTML : option bool) (content : jsstring)
  : AgentReasoningBubble.Props :=
  {| AgentReasoningBubble.apiHost := Some (js "http://localhost:3000");
     AgentReasoningBubble.chatflowid := js "cf";
     AgentReasoningBubble.chatId := js "c1";
     AgentReasoningBubble.agentName := js "planner";
     AgentReasoningBubble.agentMessage := content;
     AgentReasoningBubble.agentArtifacts := None;
     AgentReasoningBubble.textColor := None;
     AgentReasoningBubble.renderHTML := renderHTML |}.

(** A URL constructor for runs on examples: it takes what starts with
    [https://example.com] and gives the path after it; it throws on the
    rest. *)
Definition sampleNewURL : jsstring -> Result BotBubble.URL :=
  fun url =>
    if startsWith url (js "https://example.com")
    then inr {| BotBubble.pathname := skipn 19 url |}
    else inl (js "TypeError").

Definition sampleSource (url text : jsstring) : BotBubble.SourceDocument :=
  {| BotBubble.metadata := {| BotBubble.source := url |};
     BotBubble.pageContent := text |}.

Definition sampleSources : list BotBubble.SourceDocument :=
  [ sampleSource (js "https://example.com/a") (js "first");
    sampleSource (js "manual.pdf") (js "page 3");
    sampleSource (js "https://example.com/a") (js "second");
    sampleSource (js "manual.pdf") (js "page 7");
    sampleSource (js "https://example.com/b") (js "third") ].

Definition sampleMessage (id : option jsstring) (text : jsstring) : MessageType.t :=
  {| MessageType.message := text; MessageType.messageId := id;
     MessageType.rating := None; MessageType.artifacts := None |}.

(** A stored chat, for runs on examples: the text [chat] parses to a history
    of three messages, any other text is not JSON; a history is written out
    as the number of its rated messages. *)
Definition sampleHistory : list MessageType.t :=
  [ sampleMessage (Some (js "m0")) (js "hi");
    sampleMessage (Some (js "m1")) (js "hello");
    sampleMessage (Some (js "m1")) (js "hello again") ].

Definition sampleParseJSON : jsstring -> Result BotBubble.ChatDetails :=
  fun text =>
    if jsstring_eqb text (js "chat")
    then inr {| BotBubble.chatHistory := Some sampleHistory;
                BotBubble.otherDetails := js "chatId" |}
    else inl (js "SyntaxError").

Definition sampleStringifyJSON : BotBubble.ChatDetails -> jsstring :=
  fun details =>
    js "rated:" ++
    concat (map (fun m => match MessageType.rating m with
                          | Some THUMBS_UP => js "+"
                          | Some THUMBS_DOWN => js "-"
                          | None => js "."
                          end)
              (nullish (BotBubble.chatHistory details) [])).

Definition sampleStorage : BotBubble.Storage :=
  fun key => if jsstring_eqb key (js "cf_EXTERNAL") then Some (js "chat") else None.

(* ===================================================================== *)
(** ** Notions used in the statements *)
(* ===================================================================== *)

(** [pat] occurs in [s] at index [k]. *)
Definition occursAt (s pat : jsstring) (k : nat) : bool :=
  startsWith (skipn k s) pat.

(** No code unit of [u] is one of [pat]. *)
Definition disjointFrom (u pat : jsstring) : bool :=
  forallb (fun c => negb (existsb (N.eqb c) pat)) u.

(** The text of the parsed body, trimmed; empty when the parser throws or
    the document has no body. *)
Definition extractedBodyText (parseFromString : DOMParser) (content : jsstring)
  : jsstring :=
  match parseFromString content with
  | inl _ => []
  | inr doc =>
      match body doc with
      | Some b => trim (textContent b)
      | None => []
      end
  end.

(** The text with the loading glyph, or the placeholder. *)
Definition loadingText (text : jsstring) : jsstring :=
  match text with
  | [] => loadingContent
  | _ :: _ => text ++ js " " ++ [hourglass]
  end.

(** The download buttons appended after the content. *)
Definition downloadButtons (props : BotBubble.Props) : list Effect :=
  match BotBubble.fileAnnotations props with
  | Some annotations =>
      map (fun a => AppendDownloadButton (BotBubble.fileName a)) annotations
  | None => []
  end.

(** The decoration pass of the simple HTML strategy in [BotBubble]. *)
Definition simpleDecoration (props : BotBubble.Props) : list Effect :=
  [ StyleColor (js "a, h1, h2, h3, h4, h5, h6, strong, em, blockquote, li, p")
      (nullish (BotBubble.textColor props) defaultTextColor);
    LinkTarget (js "a") (js "_blank") ].

Definition mapKeyPlaceholder : jsstring := js "GOOGLE_MAP_KEY".

(** The segments one after the other, with [filler] between each two. *)
Fixpoint interleave (filler : jsstring) (segments : list jsstring) : jsstring :=
  match segments with
  | [] => []
  | [segment] => segment
  | segment :: rest => segment ++ filler ++ interleave filler rest
  end.

(** The literal key put in the place of the placeholder. *)
Definition mapKey : jsstring := js "abc".

(** [l] is [m] with some elements left out, the order kept. *)
Inductive Subsequence {A : Type} : list A -> list A -> Prop :=
| Subsequence_nil : Subsequence [] []
| Subsequence_skip (x : A) (l m : list A) :
    Subsequence l m -> Subsequence l (x :: m)
| Subsequence_keep (x : A) (l m : list A) :
    Subsequence l m -> Subsequence (x :: l) (x :: m).

(** The source document has a valid URL as its source. *)
Definition hasValidURL (newURL : jsstring -> Result BotBubble.URL)
    (src : BotBubble.SourceDocument) : bool :=
  BotBubble.isSome
    (BotBubble.isValidURL newURL (BotBubble.source (BotBubble.metadata src))).

Definition sourceOf (src : BotBubble.SourceDocument) : jsstring :=
  BotBubble.source (BotBubble.metadata src).

(** The decoration pass of the markdown strategy in [BotBubble]. *)
Definition markdownDecoration (props : BotBubble.Props) : list Effect :=
  [ StyleColor markdownSelectors (nullish (BotBubble.textColor props) defaultTextColor);
    StyleColor (js "pre") (js "#FFFFFF");
    StyleColorWithin (js "pre") (js "code") (js "#FFFFFF");
    StyleColor (js "code:not(pre code)") (js "#4CAF50");
    LinkTarget (js "a") (js "_blank") ].

(** The iframe set up by [BotBubble] for a rich document. *)
Definition iframeSetup (messageContent : jsstring) : list Effect :=
  [ SetInnerHTML [];
    SetElementStyle (js "overflow") (js "hidden");
    AppendIframe iframeStyles iframeAttributes;
    SetTimeout (WriteIframe messageContent) 0 ].

(* ===================================================================== *)
(** ** String methods: examples and lemmas *)
(* ===================================================================== *)

Example startsWith_ex : startsWith (js "<html lang") (js "<html") = true.
Proof. reflexivity. Qed.

Example trim_ex : trim (js "  <p> a </p>  ") = js "<p> a </p>".
Proof. reflexivity. Qed.

Example replace_ex :
  replace (js "a</head>b</head>") (js "</head>") (js "X</head>")
  = js "aX</head>b</head>".
Proof. reflexivity. Qed.

Example replaceAll_ex :
  replaceAll (js "kGOOGLE_MAP_KEY,GOOGLE_MAP_KEY") (js "GOOGLE_MAP_KEY") (js "abc")
  = js "kabc,abc".
Proof. reflexivity. Qed.

Example lastIndexOf_ex : lastIndexOf (js "a</style>b</style>c") (js "</style>") = 10%Z.
Proof. reflexivity. Qed.

Example isFullHTMLDocument_ex :
  isFullHTMLDocument (js "  <HTML lang=en>") = true
  /\ isFullHTMLDocument (js "<!doctype html>") = false
  /\ isFullHTMLDocument (js "text <html>") = false.
Proof. repeat split; reflexivity. Qed.

Lemma startsWith_nil (s : jsstring) : startsWith s [] = true.
Proof. destruct s; reflexivity. Qed.

Lemma startsWith_app (pat t : jsstring) : startsWith (pat ++ t) pat = true.
Proof.
  induction pat as [|p pat IH]; simpl; [apply startsWith_nil|].
  now rewrite N.eqb_refl, IH.
Qed.

Lemma startsWith_split (s pat : jsstring) :
  startsWith s pat = true -> s = pat ++ skipn (length pat) s.
Proof.
  revert s; induction pat as [|p pat IH]; intros s H; simpl in *; [reflexivity|].
  destruct s as [|c s]; [discriminate|].
  apply andb_true_iff in H as [Hc Hs].
  apply N.eqb_eq in Hc; subst c.
  simpl. f_equal. now apply IH.
Qed.

Lemma startsWith_length (s pat : jsstring) :
  startsWith s pat = true -> length pat <= length s.
Proof.
  intro H. apply startsWith_split in H.
  apply (f_equal (@length N)) in H. rewrite length_app in H. lia.
Qed.

Lemma includes_false_cons (c : N) (s pat : jsstring) :
  includes (c :: s) pat = false ->
  startsWith (c :: s) pat = false /\ includes s pat = false.
Proof.
  cbn [includes]. intro H. now apply orb_false_iff in H.
Qed.

Lemma includes_startsWith (s pat : jsstring) :
  startsWith s pat = true -> includes s pat = true.
Proof.
  intro H. destruct s; cbn [includes]; rewrite H; reflexivity.
Qed.

(** [includes] holds exactly when some suffix starts with the pattern. *)
Lemma includes_skipn (s pat : jsstring) :
  includes s pat = true <->
  exists k, k <= length s /\ startsWith (skipn k s) pat = true.
Proof.
  induction s as [|c s IH].
  - cbn [includes]. rewrite orb_false_r. split.
    + intro H. exists 0. now split.
    + intros [k [Hk H]]. now rewrite skipn_nil in H.
  - cbn [includes]. rewrite orb_true_iff, IH. split.
    + intros [H | [k [Hk H]]].
      * exists 0. split; [lia | exact H].
      * exists (S k). split; [simpl; lia | exact H].
    + intros [[|k] [Hk H]].
      * now left.
      * right. exists k. split; [simpl in Hk; lia | exact H].
Qed.

Lemma includes_app_r (pre s pat : jsstring) :
  includes s pat = true -> includes (pre ++ s) pat = true.
Proof.
  intro H. induction pre as [|c pre IH]; [exact H|].
  cbn [app includes]. rewrite IH. apply orb_true_r.
Qed.

Lemma indexOf_startsWith (s pat : jsstring) :
  startsWith s pat = true -> indexOf s pat = 0%Z.
Proof.
  intro H. unfold indexOf. destruct s; cbn [indexFrom]; rewrite H; reflexivity.
Qed.

(** Removing a prefix with [replace]. *)
Lemma replace_prefix (s pat : jsstring) :
  startsWith s pat = true -> replace s pat [] = skipn (length pat) s.
Proof.
  intro H. unfold replace. rewrite (indexOf_startsWith _ _ H). reflexivity.
Qed.

(* ===================================================================== *)
(** ** Classification *)
(* ===================================================================== *)

Example classify_ex :
  classify (Some true) (js "<html><body><canvas></canvas></body></html>") = CompleteRichHTML
  /\ classify (Some true) (js "<html><body><p>hi</p></body></html>") = CompleteSimpleHTML
  /\ classify (Some true) (js "<html><body><p>hi") = IncompleteHTML
  /\ classify (Some true) (js "# title") = PlainMarkdown
  /\ classify None (js "<html><body><p>hi</p></body></html>") = PlainMarkdown.
Proof. repeat split; reflexivity. Qed.

(** What [isFullHTMLDocument] rejects: a trimmed content that starts with
    neither [<!DOCTYPE] nor [<html], in this very case, and with no html
    tag in any case. *)
Lemma isFullHTMLDocument_false (content : jsstring) :
  isFullHTMLDocument content = false <->
  startsWith (trim content) (js "<!DOCTYPE") = false
  /\ startsWith (trim content) (js "<html") = false
  /\ htmlTagRegExp_test (trim content) = false.
Proof.
  unfold isFullHTMLDocument. cbv zeta.
  rewrite !orb_false_iff. tauto.
Qed.

(** The classification is [PlainMarkdown] as soon as one of the first two
    guards fails. *)
Lemma classify_plain (renderHTML : option bool) (content : jsstring) :
  truthy renderHTML && isFullHTMLDocument content = false ->
  classify renderHTML content = PlainMarkdown.
Proof.
  intro H. unfold classify. rewrite !H. reflexivity.
Qed.

(** An empty content is markdown, whatever [renderHTML] is. *)
Lemma classify_empty (renderHTML : option bool) :
  classify renderHTML [] = PlainMarkdown.
Proof.
  apply classify_plain. change (isFullHTMLDocument []) with false.
  apply andb_false_r.
Qed.

(** A message that is not rendered as markdown is not empty, so that the
    span of [AgentReasoningBubble] is there. *)
Lemma agent_bound (props : AgentReasoningBubble.Props) :
  classify (AgentReasoningBubble.renderHTML props)
    (AgentReasoningBubble.agentMessage props) <> PlainMarkdown ->
  AgentReasoningBubble.botMessageEl props = true.
Proof.
  unfold AgentReasoningBubble.botMessageEl.
  destruct (AgentReasoningBubble.agentMessage props); [|reflexivity].
  rewrite classify_empty. congruence.
Qed.

(** C1, as stated, fails: a content with a script tag and both closing tags
    is classified [PlainMarkdown] when [renderHTML] is off, and also when it
    is on and the content does not start with a doctype or html tag. *)
Lemma script_and_closing_tags_not_always_rich :
  (let content := js "<html><body><script>draw()</script></body></html>" in
   includes content (js "<script") = true
   /\ includes content (js "</body>") = true
   /\ includes content (js "</html>") = true
   /\ classify (Some false) content = PlainMarkdown
   /\ classify None content = PlainMarkdown)
  /\ (let content := js "Here it is: <script>draw()</script></body></html>" in
      includes content (js "<script") = true
      /\ includes content (js "</body>") = true
      /\ includes content (js "</html>") = true
      /\ classify (Some true) content = PlainMarkdown).
Proof. repeat split; reflexivity. Qed.

(** With [renderHTML] on, a full and complete document with a script tag
    is classified [CompleteRichHTML]. *)
Lemma classify_rich (renderHTML : option bool) (content : jsstring) :
  truthy renderHTML = true ->
  isFullHTMLDocument content = true ->
  includes content (js "<script") = true ->
  includes content (js "</body>") = true ->
  includes content (js "</html>") = true ->
  classify renderHTML content = CompleteRichHTML.
Proof.
  intros Hr Hfull Hscript Hbody Hhtml.
  unfold classify, isCompleteHTMLDocument, needsIframeRendering.
  rewrite Hr, Hfull, Hscript, Hbody, Hhtml. reflexivity.
Qed.

Lemma classify_not_full (renderHTML : option bool) (content : jsstring) :
  isFullHTMLDocument content = false ->
  classify renderHTML content = PlainMarkdown.
Proof.
  intro H. apply classify_plain. rewrite H. apply andb_false_r.
Qed.

(* ===================================================================== *)
(** ** Image artifacts *)
(* ===================================================================== *)

(** In [BotBubble], a reference with the storage prefix becomes the
    download URL of the file named after the prefix. *)
Lemma imageSrc_file_storage (props : BotBubble.Props) (t : option jsstring)
    (name : jsstring) :
  BotBubble.imageSrc props {| type := t; data := Some (storagePrefix ++ name) |}
  = Some (uploadFileURL (BotBubble.apiHost props) (BotBubble.chatflowid props)
            (BotBubble.chatId props) name).
Proof.
  unfold BotBubble.imageSrc. cbn [data].
  fold storagePrefix.
  rewrite startsWith_app.
  rewrite replace_prefix by apply startsWith_app.
  now rewrite skipn_app, skipn_all, Nat.sub_diag.
Qed.

(** In [BotBubble], any other reference is the [src] as it is. *)
Lemma imageSrc_passed_through (props : BotBubble.Props) (t : option jsstring)
    (d : jsstring) :
  startsWith d storagePrefix = false ->
  BotBubble.imageSrc props {| type := t; data := Some d |} = Some d.
Proof.
  intro H. unfold BotBubble.imageSrc. cbn [data].
  fold storagePrefix. now rewrite H.
Qed.

(** In [AgentReasoningBubble], every image reference is put into the
    download URL, with or without the prefix. *)
Lemma agent_image_always_rewritten (props : AgentReasoningBubble.Props)
    (t d : jsstring) :
  (jsstring_eqb t (js "png") || jsstring_eqb t (js "jpeg")) = true ->
  AgentReasoningBubble.agentReasoningArtifacts props
    [Some {| type := Some t; data := Some d |}]
  = inr [Some {| type := Some t;
                 data := Some (uploadFileURL (AgentReasoningBubble.apiHost props)
                                 (AgentReasoningBubble.chatflowid props)
                                 (AgentReasoningBubble.chatId props)
                                 (replace d storagePrefix [])) |}].
Proof.
  intro H. cbn [AgentReasoningBubble.agentReasoningArtifacts].
  unfold typeIs. cbn [type data]. now rewrite H.
Qed.

(** C3, at an image artifact without the storage prefix: [BotBubble] leaves
    the reference as it is, [AgentReasoningBubble] rewrites it into a
    download URL. *)
Theorem agent_image_unprefixed_rewritten :
  let item := {| type := Some (js "png"); data := Some (js "https://example.com/a.png") |} in
  startsWith (js "https://example.com/a.png") storagePrefix = false
  /\ BotBubble.imageSrc (sampleBotProps (Some true) (js "see picture")) item
     = Some (js "https://example.com/a.png")
  /\ AgentReasoningBubble.artifactViews sampleMarked
       {| AgentReasoningBubble.apiHost := Some (js "http://localhost:3000");
          AgentReasoningBubble.chatflowid := js "cf";
          AgentReasoningBubble.chatId := js "c1";
          AgentReasoningBubble.agentName := js "planner";
          AgentReasoningBubble.agentMessage := js "see picture";
          AgentReasoningBubble.agentArtifacts := Some [Some item];
          AgentReasoningBubble.textColor := None;
          AgentReasoningBubble.renderHTML := Some true |}
     = inr [Some (Image (Some (js
         "http://localhost:3000/api/v1/get-upload-file?chatflowId=cf&chatId=c1&fileName=https://example.com/a.png")))].
Proof. repeat split; reflexivity. Qed.

(* ===================================================================== *)
(** ** Occurrences *)
(* ===================================================================== *)

Section Occurrences.

Variables u pat : jsstring.
Hypothesis pat_nonempty : pat <> [].
Hypothesis apart : disjointFrom u pat = true.

Lemma disjointFrom_head (c : N) (u' : jsstring) (p : N) (ps : jsstring) :
  disjointFrom (c :: u') (p :: ps) = true ->
  N.eqb c p = false /\ disjointFrom [c] ps = true
  /\ disjointFrom u' (p :: ps) = true.
Proof.
  unfold disjointFrom. cbn [forallb existsb].
  rewrite !andb_true_iff, negb_true_iff, orb_false_iff.
  intros [[H1 H2] H3]. rewrite H2. auto.
Qed.

(** A text made of code units foreign to the pattern holds no occurrence,
    and none reaches into it from the left. *)
Lemma startsWith_app_apart (s : jsstring) :
  startsWith (s ++ u) pat = startsWith s pat.
Proof using pat_nonempty apart.
  clear pat_nonempty. revert s apart.
  induction pat as [|p ps IH]; intros s Hu.
  - now rewrite !startsWith_nil.
  - destruct s as [|c s]; cbn [app startsWith].
    + destruct u as [|c u']; [reflexivity|].
      apply disjointFrom_head in Hu as [Hc _].
      cbn [startsWith]. now rewrite Hc.
    + f_equal. apply IH.
      unfold disjointFrom in *. rewrite forallb_forall in *.
      intros x Hx. specialize (Hu x Hx). cbn [existsb] in Hu.
      rewrite negb_true_iff in *. now apply orb_false_iff in Hu.
Qed.

Lemma includes_apart : includes u pat = false.
Proof using pat_nonempty apart.
  revert apart. destruct pat as [|p ps]; [congruence|]. clear pat_nonempty.
  induction u as [|c u' IH]; intro Hu; [reflexivity|].
  apply disjointFrom_head in Hu as [Hc [_ Hu']].
  cbn [includes startsWith]. rewrite Hc. now apply IH.
Qed.

Lemma includes_app_apart (s : jsstring) :
  includes (s ++ u) pat = includes s pat.
Proof using pat_nonempty apart.
  induction s as [|c s IH].
  - cbn [app]. rewrite includes_apart. cbn [includes].
    destruct pat; [congruence | reflexivity].
  - cbn [app includes]. rewrite IH. f_equal.
    apply (startsWith_app_apart (c :: s)).
Qed.

Lemma includes_apart_app (r : jsstring) :
  includes r pat = false -> includes (u ++ r) pat = false.
Proof using pat_nonempty apart.
  intro Hr. revert apart. destruct pat as [|p ps]; [congruence|].
  clear pat_nonempty.
  induction u as [|c u' IH]; intro Hu; [exact Hr|].
  apply disjointFrom_head in Hu as [Hc [_ Hu']].
  cbn [app includes startsWith]. rewrite Hc. now apply IH.
Qed.

End Occurrences.

(* ===================================================================== *)
(** ** Runs of the render *)
(* ===================================================================== *)

Lemma forEach_emit {A} (f : A -> Effect) (l : list A) (log : list Effect) :
  forEach l (fun a => emit (f a)) log = (log ++ map f l, inr tt).
Proof.
  revert log. induction l as [|a l IH]; intro log; cbn [forEach map].
  - unfold mret. now rewrite app_nil_r.
  - unfold mbind, emit. rewrite IH. now rewrite <- app_assoc.
Qed.

Lemma downloadButtons_run (props : BotBubble.Props) (log : list Effect) :
  match BotBubble.fileAnnotations props with
  | Some annotations =>
      forEach annotations (fun a => emit (AppendDownloadButton (BotBubble.fileName a)))
  | None => mret tt
  end log = (log ++ downloadButtons props, inr tt).
Proof.
  unfold downloadButtons. destruct (BotBubble.fileAnnotations props).
  - apply forEach_emit.
  - unfold mret. now rewrite app_nil_r.
Qed.

Lemma orElse_nil (v : option jsstring) :
  orElse v [] = match v with Some s => s | None => [] end.
Proof. destruct v as [[|c s]|]; reflexivity. Qed.

(** [extractTextFromIncompleteHTML] returns, whatever the parser does. *)
Lemma extractTextFromIncompleteHTML_returns (parser : DOMParser) (content : jsstring) :
  extractTextFromIncompleteHTML parser content
  = inr (loadingText (extractedBodyText parser content)).
Proof.
  unfold extractTextFromIncompleteHTML, extractedBodyText, tryCatchResult.
  destruct (parser content) as [e|doc]; [reflexivity|].
  rewrite orElse_nil.
  destruct (body doc) as [b|]; cbn [option_map]; [|reflexivity].
  destruct (trim (textContent b)); reflexivity.
Qed.

Ltac run_render :=
  unfold run, BotBubble.setBotMessageRef, AgentReasoningBubble.onMount;
  cbv beta zeta.

Ltac step_render := cbv [mbind emit lift tryCatch mret]; cbn [app fst snd].

(** C4, as stated, fails: the text of the body can itself spell a tag.  The
    incomplete document [<html><body>&lt;script&gt;] has the body text
    [<script>], which is what the bubble then shows. *)
Lemma incomplete_html_shows_tag_text :
  let content := js "<html><body>&lt;script&gt;" in
  let props := sampleBotProps (Some true) content in
  classify (BotBubble.renderHTML props) content = IncompleteHTML
  /\ run (BotBubble.setBotMessageRef sampleParser sampleMarked props)
     = ([SetTextContent (js "<script> " ++ [hourglass]); SetBotMessageElement], inr tt)
  /\ includes (js "<script> " ++ [hourglass]) (js "<script>") = true.
Proof. repeat split; reflexivity. Qed.

(** C4, amended: for a content classified [IncompleteHTML], [BotBubble]
    sets the text of the bubble to the trimmed text of the parsed body
    followed by a space and the hourglass when that text is not empty, and
    to the loading placeholder otherwise; what is shown contains [<script>]
    or [<html] exactly when the extracted text does. *)
Theorem incomplete_html_visible_text
    (parser : DOMParser) (marked : Markdown) (props : BotBubble.Props) :
  let content := MessageType.message (BotBubble.message props) in
  classify (BotBubble.renderHTML props) content = IncompleteHTML ->
  let text := extractedBodyText parser content in
  run (BotBubble.setBotMessageRef parser marked props)
  = ([SetTextContent (loadingText text); SetBotMessageElement]
       ++ downloadButtons props, inr tt)
  /\ (text = [] -> loadingText text = js "Loading content... " ++ [hourglass])
  /\ (text <> [] -> loadingText text = text ++ js " " ++ [hourglass])
  /\ includes (loadingText text) (js "<script>") = includes text (js "<script>")
  /\ includes (loadingText text) (js "<html") = includes text (js "<html").
Proof.
  intros content Hclass text. split; [|split; [|split; [|split]]].
  - run_render. fold content. rewrite Hclass.
    rewrite extractTextFromIncompleteHTML_returns. fold text.
    step_render. apply downloadButtons_run.
  - intros ->. reflexivity.
  - destruct text; [congruence | reflexivity].
  - destruct text as [|c t]; [reflexivity|].
    cbn [loadingText]. apply includes_app_apart; [discriminate | reflexivity].
  - destruct text as [|c t]; [reflexivity|].
    cbn [loadingText]. apply includes_app_apart; [discriminate | reflexivity].
Qed.

Lemma incomplete_html_visible_text_witness :
  run (BotBubble.setBotMessageRef sampleParser sampleMarked
         (sampleBotProps (Some true) (js "<html><body><p>Total: 42")))
  = ([SetTextContent (js "Total: 42 " ++ [hourglass]); SetBotMessageElement], inr tt).
Proof.
  apply (incomplete_html_visible_text sampleParser sampleMarked
           (sampleBotProps (Some true) (js "<html><body><p>Total: 42"))).
  reflexivity.
Defined.

(* ===================================================================== *)
(** ** Replacement of every occurrence *)
(* ===================================================================== *)

(** A replacement text without dollar sign is taken as it is. *)
Lemma GetSubstitution_plain (matched str : jsstring) (position : nat)
    (replacement : jsstring) :
  existsb (N.eqb 36) replacement = false ->
  GetSubstitution matched str position replacement = replacement.
Proof.
  induction replacement as [|c r IH]; [reflexivity|].
  cbn [existsb]. rewrite orb_false_iff. intros [Hc Hr].
  cbn [GetSubstitution]. rewrite N.eqb_sym in Hc. rewrite Hc.
  f_equal. now apply IH.
Qed.

Lemma nonempty_cons (l : jsstring) : l <> [] -> exists c l', l = c :: l'.
Proof. destruct l as [|c l']; [congruence | eauto]. Qed.

Section ReplaceAll.

Variables str replacement : jsstring.
Variable p : N.
Variable ps : jsstring.
Let pat := p :: ps.

Hypothesis plain : existsb (N.eqb 36) replacement = false.
Hypothesis replacement_nonempty : replacement <> [].
Hypothesis apart : disjointFrom replacement pat = true.

Lemma replaceAllFrom_nil (position : nat) :
  replaceAllFrom str pat replacement position [] = [].
Proof. subst pat. now simp replaceAllFrom. Qed.

Lemma replaceAllFrom_cons (position : nat) (c : N) (rest : jsstring) :
  replaceAllFrom str pat replacement position (c :: rest)
  = if startsWith (c :: rest) pat
    then replacement
           ++ replaceAllFrom str pat replacement (position + length pat)
                (skipn (length ps) rest)
    else c :: replaceAllFrom str pat replacement (S position) rest.
Proof using plain.
  subst pat. simp replaceAllFrom.
  destruct (startsWith (c :: rest) (p :: ps)); [|reflexivity].
  now rewrite GetSubstitution_plain.
Qed.

(** What the output starts with, as long as it is foreign to the
    replacement, the input starts with too. *)
Lemma replaceAllFrom_startsWith (q : jsstring) :
  disjointFrom replacement q = true ->
  forall position rest,
    startsWith (replaceAllFrom str pat replacement position rest) q = true ->
    startsWith rest q = true.
Proof using plain replacement_nonempty.
  induction q as [|x q IH]; intros Hq position rest H.
  - apply startsWith_nil.
  - destruct rest as [|c rest].
    + now rewrite replaceAllFrom_nil in H.
    + rewrite replaceAllFrom_cons in H.
      destruct (startsWith (c :: rest) pat).
      * destruct (nonempty_cons replacement_nonempty) as [r0 [r Hr]].
        rewrite Hr in H, Hq.
        apply disjointFrom_head in Hq as [Hr0 _].
        cbn [app startsWith] in H. now rewrite Hr0 in H.
      * cbn [startsWith] in H |- *.
        apply andb_true_iff in H as [Hc H]. rewrite Hc. cbn [andb].
        apply (IH) with (position := S position); [|exact H].
        unfold disjointFrom in Hq |- *. rewrite forallb_forall in Hq |- *.
        intros y Hy. specialize (Hq y Hy). cbn [existsb] in Hq.
        rewrite negb_true_iff in Hq |- *. now apply orb_false_iff in Hq.
Qed.

(** The output holds no occurrence of the pattern. *)
Lemma replaceAllFrom_clean (n : nat) :
  forall position rest, length rest <= n ->
    includes (replaceAllFrom str pat replacement position rest) pat = false.
Proof using plain replacement_nonempty apart.
  induction n as [|n IH]; intros position rest Hlen.
  - destruct rest; [|simpl in Hlen; lia].
    rewrite replaceAllFrom_nil. reflexivity.
  - destruct rest as [|c rest].
    + rewrite replaceAllFrom_nil. reflexivity.
    + rewrite replaceAllFrom_cons.
      destruct (startsWith (c :: rest) pat) eqn:Hhere.
      * apply includes_apart_app; [discriminate | exact apart |].
        apply IH. rewrite length_skipn. simpl in Hlen. lia.
      * cbn [includes]. rewrite IH by (simpl in Hlen; lia).
        rewrite orb_false_r.
        destruct (startsWith
                    (c :: replaceAllFrom str pat replacement (S position) rest) pat)
          eqn:Hout; [|reflexivity].
        exfalso. unfold pat in Hout at 2. unfold pat in Hhere.
        cbn [startsWith] in Hout, Hhere.
        apply andb_true_iff in Hout as [Hc Hout].
        rewrite Hc in Hhere. cbn [andb] in Hhere.
        apply replaceAllFrom_startsWith in Hout; [congruence|].
        pose proof apart as Hq.
        unfold disjointFrom in Hq |- *. rewrite forallb_forall in Hq |- *.
        intros y Hy. specialize (Hq y Hy). cbn [existsb] in Hq.
        rewrite negb_true_iff in Hq |- *. now apply orb_false_iff in Hq.
Qed.

End ReplaceAll.

Lemma replaceAll_clean (s replacement : jsstring) (p : N) (ps : jsstring) :
  existsb (N.eqb 36) replacement = false ->
  replacement <> [] ->
  disjointFrom replacement (p :: ps) = true ->
  includes (replaceAll s (p :: ps) replacement) (p :: ps) = false.
Proof.
  intros Hplain Hne Hapart. unfold replaceAll.
  now apply (@replaceAllFrom_clean s replacement p ps Hplain Hne Hapart (length s)).
Qed.

Example modifiedContent_ex :
  modifiedContent (js "<script src=maps?key=GOOGLE_MAP_KEY></script>")
  = cssOverride ++ js "<script src=maps?key=abc></script>".
Proof. reflexivity. Qed.

(* ===================================================================== *)
(** ** Feedback *)
(* ===================================================================== *)

Module FeedbackFacts.
Import BotBubble.

Example first_vote_ex :
  map rating
    (trace (initialState (sampleBotProps None (js "hello")))
       [ThumbsUpClick; Answer 0 (Data (Some (js "f1"))); ThumbsDownClick; ThumbsUpClick])
  = [None; None; Some THUMBS_UP; Some THUMBS_UP; Some THUMBS_UP].
Proof. reflexivity. Qed.

(** Two clicks made while the rating is still empty both pass the guard;
    their answers then set the rating one after the other. *)
Example pending_answers_ex :
  map rating
    (trace (initialState (sampleBotProps None (js "hello")))
       [ThumbsUpClick; ThumbsDownClick; Answer 0 (Data None); Answer 0 (Data None)])
  = [None; None; None; Some THUMBS_UP; Some THUMBS_DOWN].
Proof. reflexivity. Qed.

(** A click in a state with a rating changes nothing at all. *)
Lemma onClick_rated (r : FeedbackRatingType) (s : FeedbackState) :
  rating s <> None -> onClick r s = s.
Proof.
  intro H. unfold onClick. destruct (rating s); [reflexivity | congruence].
Qed.

(** No event empties the rating. *)
Lemma step_keeps_rating (s : FeedbackState) (e : Event) :
  rating s <> None -> rating (step s e) <> None.
Proof.
  intro H. destruct e as [| |i response|[|]|]; cbn [step]; try assumption.
  - unfold onThumbsUpClick. now rewrite onClick_rated.
  - unfold onThumbsDownClick. now rewrite onClick_rated.
  - destruct (nth_error (pending s) i) as [r|]; [|assumption].
    destruct response; cbn [onAnswer rating]; try assumption. discriminate.
Qed.

Lemma leavesEmpty_cons (s s' : FeedbackState) (es : list Event) :
  leavesEmpty (s :: trace s' es)
  = match rating s, rating s' with
    | None, Some _ => 1
    | _, _ => 0
    end + leavesEmpty (trace s' es).
Proof. destruct es; reflexivity. Qed.

Lemma trace_rated (es : list Event) :
  forall s, rating s <> None -> leavesEmpty (trace s es) = 0.
Proof.
  induction es as [|e es IH]; intros s H; [reflexivity|].
  cbn [trace]. rewrite leavesEmpty_cons.
  rewrite IH by now apply step_keeps_rating.
  destruct (rating s); [reflexivity | congruence].
Qed.

Lemma trace_leavesEmpty (es : list Event) :
  forall s, leavesEmpty (trace s es) <= 1.
Proof.
  induction es as [|e es IH]; intro s; [cbn; lia|].
  cbn [trace]. rewrite leavesEmpty_cons.
  destruct (rating (step s e)) eqn:Hnext.
  - rewrite trace_rated by congruence. destruct (rating s); lia.
  - specialize (IH (step s e)). destruct (rating s); lia.
Qed.

End FeedbackFacts.

(** C6: along every run of the component the rating leaves the empty state
    at most once, and in every state met where a rating is set, a click on
    thumbs up or thumbs down changes nothing. *)
Theorem rating_set_once
    (props : BotBubble.Props) (es : list BotBubble.Event) (s : BotBubble.FeedbackState) :
  In s (BotBubble.trace (BotBubble.initialState props) es) ->
  BotBubble.rating s <> None ->
  BotBubble.leavesEmpty (BotBubble.trace (BotBubble.initialState props) es) <= 1
  /\ BotBubble.step s BotBubble.ThumbsUpClick = s
  /\ BotBubble.step s BotBubble.ThumbsDownClick = s.
Proof.
  intros _ Hset. split; [apply FeedbackFacts.trace_leavesEmpty|].
  split; now apply FeedbackFacts.onClick_rated.
Qed.

Lemma rating_set_once_witness :
  let props := sampleBotProps None (js "hello") in
  let es := [BotBubble.ThumbsUpClick; BotBubble.Answer 0 (BotBubble.Data (Some (js "f1")))] in
  let s := BotBubble.runEvents (BotBubble.initialState props) es in
  BotBubble.rating s = Some THUMBS_UP
  /\ BotBubble.step s BotBubble.ThumbsDownClick = s.
Proof.
  intros props es s. split; [reflexivity|].
  apply (@rating_set_once props es s).
  - right. right. left. reflexivity.
  - discriminate.
Defined.

(* ===================================================================== *)
(** ** First and last occurrence *)
(* ===================================================================== *)

Lemma occursAt_cons (c : N) (s pat : jsstring) (k : nat) :
  occursAt (c :: s) pat (S k) = occursAt s pat k.
Proof. reflexivity. Qed.

Lemma occursAt_includes (s pat : jsstring) (k : nat) :
  k <= length s -> occursAt s pat k = true -> includes s pat = true.
Proof.
  intros Hk H. apply includes_skipn. now exists k.
Qed.

Lemma indexFrom_spec (pat s : jsstring) :
  forall i, includes s pat = true ->
    exists k, indexFrom s pat i = (i + Z.of_nat k)%Z
              /\ k <= length s
              /\ occursAt s pat k = true
              /\ forall m, m < k -> occursAt s pat m = false.
Proof.
  induction s as [|c s IH]; intros i H.
  - cbn [includes] in H. rewrite orb_false_r in H.
    exists 0. cbn [indexFrom]. rewrite H.
    repeat split; [lia | lia | exact H | intros m Hm; lia].
  - cbn [indexFrom]. destruct (startsWith (c :: s) pat) eqn:Hhere.
    + exists 0. repeat split; [lia | lia | exact Hhere | intros m Hm; lia].
    + cbn [includes] in H. rewrite Hhere in H. cbn [orb] in H.
      destruct (IH (i + 1)%Z H) as [k [Hidx [Hk [Hocc Hfirst]]]].
      exists (S k). repeat split.
      * rewrite Hidx. lia.
      * simpl. lia.
      * exact Hocc.
      * intros [|m] Hm; [exact Hhere|].
        rewrite occursAt_cons. apply Hfirst. lia.
Qed.

(** [replace] with a replacement text free of dollar signs: the text is
    put in the place of the first occurrence. *)
Lemma replace_first (s pat replacement : jsstring) :
  existsb (N.eqb 36) replacement = false ->
  includes s pat = true ->
  exists pre post,
    s = pre ++ pat ++ post
    /\ replace s pat replacement = pre ++ replacement ++ post
    /\ forall m, m < length pre -> occursAt s pat m = false.
Proof.
  intros Hplain H.
  destruct (indexFrom_spec pat s 0 H) as [k [Hidx [Hk [Hocc Hfirst]]]].
  exists (firstn k s), (skipn (k + length pat) s).
  assert (Hsplit : skipn k s = pat ++ skipn (k + length pat) s).
  { rewrite (startsWith_split _ _ Hocc) at 1.
    now rewrite skipn_skipn, Nat.add_comm. }
  repeat split.
  - rewrite <- Hsplit. symmetry. apply firstn_skipn.
  - unfold replace, indexOf. rewrite Hidx.
    replace (0 + Z.of_nat k <? 0)%Z with false by (symmetry; apply Z.ltb_ge; lia).
    rewrite Z.add_0_l, Nat2Z.id. now rewrite GetSubstitution_plain.
  - intros m Hm. apply Hfirst. rewrite length_firstn in Hm. lia.
Qed.

Lemma lastIndexFrom_none (pat s : jsstring) :
  forall i, includes s pat = false -> lastIndexFrom s pat i = (-1)%Z.
Proof.
  induction s as [|c s IH]; intros i H.
  - cbn [includes] in H. rewrite orb_false_r in H.
    cbn [lastIndexFrom]. now rewrite H.
  - apply includes_false_cons in H as [Hhere Hrest].
    cbn [lastIndexFrom]. cbv zeta. rewrite (IH _ Hrest).
    change (0 <=? -1)%Z with false. cbv iota. now rewrite Hhere.
Qed.

Lemma lastIndexFrom_spec (pat s : jsstring) :
  forall i, (0 <= i)%Z -> includes s pat = true ->
    exists k, lastIndexFrom s pat i = (i + Z.of_nat k)%Z
              /\ k <= length s
              /\ occursAt s pat k = true
              /\ forall m, k < m -> m <= length s -> occursAt s pat m = false.
Proof.
  induction s as [|c s IH]; intros i Hi H.
  - cbn [includes] in H. rewrite orb_false_r in H.
    exists 0. cbn [lastIndexFrom]. rewrite H.
    repeat split; [lia | lia | exact H | intros m Hm Hm'; simpl in Hm'; lia].
  - cbn [lastIndexFrom]. cbv zeta. destruct (includes s pat) eqn:Hrest.
    + destruct (IH (i + 1)%Z ltac:(lia) eq_refl) as [k [Hidx [Hk [Hocc Hlast]]]].
      exists (S k). rewrite Hidx.
      replace (0 <=? i + 1 + Z.of_nat k)%Z with true by (symmetry; apply Z.leb_le; lia).
      repeat split.
      * lia.
      * simpl. lia.
      * exact Hocc.
      * intros [|m] Hm Hm'; [lia|].
        rewrite occursAt_cons. apply Hlast; simpl in Hm'; lia.
    + rewrite (lastIndexFrom_none _ _ _ Hrest).
      change (0 <=? -1)%Z with false. cbv iota.
      cbn [includes] in H. rewrite Hrest, orb_false_r in H. rewrite H.
      exists 0. repeat split; [lia | lia | exact H |].
      intros [|m] Hm Hm'; [lia|].
      rewrite occursAt_cons.
      destruct (occursAt s pat m) eqn:Hocc; [|reflexivity].
      apply occursAt_includes in Hocc; [congruence | simpl in Hm'; lia].
Qed.

Lemma slice_firstn (s : jsstring) (n : nat) :
  n <= length s -> slice s 0 (Z.of_nat n) = firstn n s.
Proof.
  intro Hn. unfold slice, sliceIndex.
  replace (0 <? 0)%Z with false by reflexivity.
  replace (Z.of_nat n <? 0)%Z with false by (symmetry; apply Z.ltb_ge; lia).
  rewrite !Z.min_l by lia.
  rewrite Z.sub_0_r, Z.max_l by lia.
  now rewrite Nat2Z.id.
Qed.

Lemma sliceFrom_skipn (s : jsstring) (n : nat) :
  n <= length s -> sliceFrom s (Z.of_nat n) = skipn n s.
Proof.
  intro Hn. unfold sliceFrom, slice, sliceIndex.
  replace (Z.of_nat n <? 0)%Z with false by (symmetry; apply Z.ltb_ge; lia).
  replace (Z.of_nat (length s) <? 0)%Z with false by (symmetry; apply Z.ltb_ge; lia).
  rewrite (Z.min_l (Z.of_nat n)) by lia. rewrite Z.min_id.
  rewrite Z.max_l by lia. rewrite Nat2Z.id.
  apply firstn_all2. rewrite length_skipn. lia.
Qed.

Lemma occursAt_split (s pat : jsstring) (k : nat) :
  k <= length s -> occursAt s pat k = true ->
  exists pre post, s = pre ++ pat ++ post /\ length pre = k.
Proof.
  intros Hk Hocc. exists (firstn k s), (skipn (length pat) (skipn k s)). split.
  - rewrite <- (startsWith_split _ _ Hocc). symmetry. apply firstn_skipn.
  - rewrite length_firstn. lia.
Qed.

Lemma firstn_app_exact (a b : jsstring) : firstn (length a) (a ++ b) = a.
Proof. induction a as [|c a IH]; [reflexivity|]. simpl. now rewrite IH. Qed.

Lemma skipn_app_exact (a b : jsstring) : skipn (length a) (a ++ b) = b.
Proof. induction a as [|c a IH]; [reflexivity|]. exact IH. Qed.

(* ===================================================================== *)
(** ** The override stylesheet *)
(* ===================================================================== *)

Example insertCssOverride_ex :
  insertCssOverride (js "<html><head><title>t</title></head><body></body></html>")
  = js "<html><head><title>t</title>" ++ cssOverride ++ js "</head><body></body></html>"
  /\ insertCssOverride (js "<style>a{}</style><p><style>b{}</style><script></script>")
     = js "<style>a{}</style><p><style>b{}</style>" ++ cssOverride ++ js "<script></script>"
  /\ insertCssOverride (js "<html><head><body><canvas>")
     = js "<html><head>" ++ cssOverride ++ js "<body><canvas>"
  /\ insertCssOverride (js "<html><body><canvas>")
     = cssOverride ++ js "<html><body><canvas>".
Proof. repeat split; reflexivity. Qed.

(** C7: the override stylesheet goes right before the first [</head>] if
    there is one; otherwise right after the last [</style>] if there is
    one; otherwise right after the first [<head>] if there is one; otherwise
    in front of the whole content. *)
Theorem override_stylesheet_placement (messageContent : jsstring) :
  (includes messageContent (js "</head>") = true ->
   exists pre post,
     messageContent = pre ++ js "</head>" ++ post
     /\ (forall m, m < length pre -> occursAt messageContent (js "</head>") m = false)
     /\ insertCssOverride messageContent = pre ++ cssOverride ++ js "</head>" ++ post)
  /\ (includes messageContent (js "</head>") = false ->
      includes messageContent (js "</style>") = true ->
      exists pre post,
        messageContent = pre ++ js "</style>" ++ post
        /\ (forall m, length pre < m -> m <= length messageContent ->
                      occursAt messageContent (js "</style>") m = false)
        /\ insertCssOverride messageContent = pre ++ js "</style>" ++ cssOverride ++ post)
  /\ (includes messageContent (js "</head>") = false ->
      includes messageContent (js "</style>") = false ->
      includes messageContent (js "<head>") = true ->
      exists pre post,
        messageContent = pre ++ js "<head>" ++ post
        /\ (forall m, m < length pre -> occursAt messageContent (js "<head>") m = false)
        /\ insertCssOverride messageContent = pre ++ js "<head>" ++ cssOverride ++ post)
  /\ (includes messageContent (js "</head>") = false ->
      includes messageContent (js "</style>") = false ->
      includes messageContent (js "<head>") = false ->
      insertCssOverride messageContent = cssOverride ++ messageContent).
Proof.
  unfold insertCssOverride. repeat split.
  - intro H. rewrite H.
    destruct (@replace_first messageContent (js "</head>") (cssOverride ++ js "</head>")
                eq_refl H) as [pre [post [Hs [Hr Hfirst]]]].
    exists pre, post. repeat split; [exact Hs | exact Hfirst |].
    rewrite Hr. now rewrite <- app_assoc.
  - intros H1 H2. rewrite H1, H2.
    destruct (@lastIndexFrom_spec (js "</style>") messageContent 0%Z ltac:(lia) H2)
      as [k [Hidx [Hk [Hocc Hlast]]]].
    destruct (occursAt_split _ _ Hk Hocc) as [pre [post [Hs Hpre]]].
    exists pre, post. repeat split; [exact Hs | now rewrite Hpre |].
    unfold lastIndexOf. rewrite Hidx.
    assert (Hlen : k + 8 <= length messageContent).
    { rewrite Hs, !length_app. simpl. lia. }
    replace (0 + Z.of_nat k + 8)%Z with (Z.of_nat (k + 8)) by lia.
    rewrite slice_firstn, sliceFrom_skipn by exact Hlen.
    rewrite <- Hpre.
    change 8 with (length (js "</style>")).
    rewrite <- length_app.
    rewrite Hs at 1 2. rewrite (app_assoc pre).
    rewrite firstn_app_exact, skipn_app_exact.
    now rewrite <- !app_assoc.
  - intros H1 H2 H3. rewrite H1, H2, H3.
    destruct (@replace_first messageContent (js "<head>") (js "<head>" ++ cssOverride)
                eq_refl H3) as [pre [post [Hs [Hr Hfirst]]]].
    exists pre, post. repeat split; [exact Hs | exact Hfirst |].
    rewrite Hr. now rewrite <- app_assoc.
  - intros H1 H2 H3. now rewrite H1, H2, H3.
Qed.

Lemma override_stylesheet_placement_witness :
  (exists pre post,
     js "<html><head><style>a{}</style></head><body></body></html>"
     = pre ++ js "</head>" ++ post
     /\ (forall m, m < length pre ->
           occursAt (js "<html><head><style>a{}</style></head><body></body></html>")
             (js "</head>") m = false)
     /\ insertCssOverride (js "<html><head><style>a{}</style></head><body></body></html>")
        = pre ++ cssOverride ++ js "</head>" ++ post)
  /\ (exists pre post,
        js "<style>a{}</style><p><style>b{}</style><script></script>"
        = pre ++ js "</style>" ++ post
        /\ (forall m, length pre < m ->
              m <= length (js "<style>a{}</style><p><style>b{}</style><script></script>") ->
              occursAt (js "<style>a{}</style><p><style>b{}</style><script></script>")
                (js "</style>") m = false)
        /\ insertCssOverride (js "<style>a{}</style><p><style>b{}</style><script></script>")
           = pre ++ js "</style>" ++ cssOverride ++ post)
  /\ (exists pre post,
        js "<html><head><body><canvas>" = pre ++ js "<head>" ++ post
        /\ (forall m, m < length pre ->
              occursAt (js "<html><head><body><canvas>") (js "<head>") m = false)
        /\ insertCssOverride (js "<html><head><body><canvas>")
           = pre ++ js "<head>" ++ cssOverride ++ post)
  /\ insertCssOverride (js "<html><body><canvas>")
     = cssOverride ++ js "<html><body><canvas>".
Proof.
  repeat apply conj.
  - apply (proj1 (override_stylesheet_placement _)). reflexivity.
  - apply (proj1 (proj2 (override_stylesheet_placement _))); reflexivity.
  - apply (proj1 (proj2 (proj2 (override_stylesheet_placement _)))); reflexivity.
  - apply (proj2 (proj2 (proj2 (override_stylesheet_placement _)))); reflexivity.
Defined.

(* ===================================================================== *)
(** ** The simple HTML strategy *)
(* ===================================================================== *)

Lemma orElse_absent (v : option jsstring) (d : jsstring) :
  v = None \/ v = Some [] -> orElse v d = d.
Proof. intros [-> | ->]; reflexivity. Qed.

Lemma orElse_present (v : option jsstring) (d : jsstring) (c : N) (s : jsstring) :
  v = Some (c :: s) -> orElse v d = c :: s.
Proof. intros ->. reflexivity. Qed.

Section SimpleHTML.

Variable parser : DOMParser.
Variable marked : Markdown.

(** [BotBubble], parse succeeded. *)
Lemma bot_simple_parsed (props : BotBubble.Props) (doc : Document) :
  let content := MessageType.message (BotBubble.message props) in
  classify (BotBubble.renderHTML props) content = CompleteSimpleHTML ->
  parser content = inr doc ->
  run (BotBubble.setBotMessageRef parser marked props)
  = (SetInnerHTML (orElse (option_map innerHTML (body doc)) content)
       :: simpleDecoration props ++ [SetBotMessageElement] ++ downloadButtons props,
     inr tt).
Proof.
  intros content Hclass Hparse. run_render. fold content.
  rewrite Hclass. step_render. rewrite Hparse. step_render.
  apply downloadButtons_run.
Qed.

(** [BotBubble], parse failed. *)
Lemma bot_simple_failed (props : BotBubble.Props) (e : Exception) :
  let content := MessageType.message (BotBubble.message props) in
  classify (BotBubble.renderHTML props) content = CompleteSimpleHTML ->
  parser content = inl e ->
  run (BotBubble.setBotMessageRef parser marked props)
  = ([ConsoleWarn (js "Failed to parse HTML, falling back to markdown:");
      SetInnerHTML (marked (BotBubble.markedOptions props) content);
      SetBotMessageElement] ++ downloadButtons props,
     inr tt).
Proof.
  intros content Hclass Hparse. run_render. fold content.
  rewrite Hclass. step_render. rewrite Hparse. step_render.
  apply downloadButtons_run.
Qed.

(** [BotBubble], the markdown strategy. *)
Lemma bot_plain_markdown (props : BotBubble.Props) :
  let content := MessageType.message (BotBubble.message props) in
  classify (BotBubble.renderHTML props) content = PlainMarkdown ->
  run (BotBubble.setBotMessageRef parser marked props)
  = (SetInnerHTML (marked (BotBubble.markedOptions props) content)
       :: markdownDecoration props ++ [SetBotMessageElement] ++ downloadButtons props,
     inr tt).
Proof.
  intros content Hclass. run_render. fold content.
  rewrite Hclass. step_render. apply downloadButtons_run.
Qed.

(** [BotBubble], the iframe strategy. *)
Lemma bot_rich (props : BotBubble.Props) :
  let content := MessageType.message (BotBubble.message props) in
  classify (BotBubble.renderHTML props) content = CompleteRichHTML ->
  run (BotBubble.setBotMessageRef parser marked props)
  = (iframeSetup content ++ [SetBotMessageElement] ++ downloadButtons props, inr tt).
Proof.
  intros content Hclass. run_render. fold content.
  rewrite Hclass. step_render. apply downloadButtons_run.
Qed.

(** [AgentReasoningBubble], parse succeeded. *)
Lemma agent_simple_parsed (props : AgentReasoningBubble.Props) (doc : Document) :
  let content := AgentReasoningBubble.agentMessage props in
  classify (AgentReasoningBubble.renderHTML props) content = CompleteSimpleHTML ->
  parser content = inr doc ->
  run (AgentReasoningBubble.onMount parser marked props)
  = ([SetInnerHTML (AgentReasoningBubble.heading props ++ js "<br/><br/>"
                      ++ orElse (option_map innerHTML (body doc)) content);
      LinkTarget (js "a") (js "_blank")],
     inr tt).
Proof.
  intros content Hclass Hparse. subst content. run_render.
  rewrite agent_bound by (rewrite Hclass; discriminate).
  rewrite Hclass. step_render. rewrite Hparse. reflexivity.
Qed.

(** [AgentReasoningBubble], parse failed. *)
Lemma agent_simple_failed (props : AgentReasoningBubble.Props) (e : Exception) :
  let content := AgentReasoningBubble.agentMessage props in
  classify (AgentReasoningBubble.renderHTML props) content = CompleteSimpleHTML ->
  parser content = inl e ->
  run (AgentReasoningBubble.onMount parser marked props)
  = ([ConsoleWarn (js "Failed to parse HTML, falling back to markdown:");
      SetInnerHTML (marked (AgentReasoningBubble.markedOptions props)
                      (AgentReasoningBubble.heading props ++ [10; 10]%N ++ content))],
     inr tt).
Proof.
  intros content Hclass Hparse. subst content. run_render.
  rewrite agent_bound by (rewrite Hclass; discriminate).
  rewrite Hclass. step_render. rewrite Hparse. reflexivity.
Qed.

(** [AgentReasoningBubble], the markdown strategy, for a message that is
    not empty. *)
Lemma agent_plain_markdown (props : AgentReasoningBubble.Props) :
  let content := AgentReasoningBubble.agentMessage props in
  content <> [] ->
  classify (AgentReasoningBubble.renderHTML props) content = PlainMarkdown ->
  run (AgentReasoningBubble.onMount parser marked props)
  = ([SetInnerHTML (marked (AgentReasoningBubble.markedOptions props)
                      (AgentReasoningBubble.heading props ++ [10; 10]%N ++ content));
      LinkTarget (js "a") (js "_blank")],
     inr tt).
Proof.
  intros content Hne Hclass. subst content. run_render.
  unfold AgentReasoningBubble.botMessageEl.
  destruct (AgentReasoningBubble.agentMessage props) eqn:Hmsg; [congruence|].
  rewrite Hclass. reflexivity.
Qed.

(** [AgentReasoningBubble] with an empty message: there is no span, and
    nothing is written. *)
Lemma agent_empty_message (props : AgentReasoningBubble.Props) :
  AgentReasoningBubble.agentMessage props = [] ->
  run (AgentReasoningBubble.onMount parser marked props) = ([], inr tt).
Proof.
  intro Hmsg. run_render. unfold AgentReasoningBubble.botMessageEl.
  now rewrite Hmsg.
Qed.

(** Neither render throws, whatever the parser does. *)
Lemma setBotMessageRef_returns (props : BotBubble.Props) :
  snd (run (BotBubble.setBotMessageRef parser marked props)) = inr tt.
Proof.
  run_render.
  destruct (classify _ _); step_render;
    rewrite ?extractTextFromIncompleteHTML_returns;
    try destruct (parser _); step_render;
    now rewrite downloadButtons_run.
Qed.

Lemma onMount_returns (props : AgentReasoningBubble.Props) :
  snd (run (AgentReasoningBubble.onMount parser marked props)) = inr tt.
Proof.
  run_render. destruct (AgentReasoningBubble.botMessageEl props); [|reflexivity].
  destruct (classify _ _); step_render;
    rewrite ?extractTextFromIncompleteHTML_returns;
    try destruct (parser _); reflexivity.
Qed.

End SimpleHTML.

(** C8: for the document [<html><body><p>hi</p></body></html>], with
    [renderHTML] on and a parser that gives its body the inner content
    [<p>hi</p>], [BotBubble] takes the simple HTML strategy and injects
    exactly [<p>hi</p>], followed by the colour and link decoration; what
    is injected holds no html or body tag. *)
Theorem simple_html_round_trip
    (parser : DOMParser) (marked : Markdown) (props : BotBubble.Props)
    (doc : Document) :
  let content := js "<html><body><p>hi</p></body></html>" in
  MessageType.message (BotBubble.message props) = content ->
  truthy (BotBubble.renderHTML props) = true ->
  parser content = inr doc ->
  option_map innerHTML (body doc) = Some (js "<p>hi</p>") ->
  classify (BotBubble.renderHTML props) content = CompleteSimpleHTML
  /\ run (BotBubble.setBotMessageRef parser marked props)
     = (SetInnerHTML (js "<p>hi</p>")
          :: simpleDecoration props ++ [SetBotMessageElement] ++ downloadButtons props,
        inr tt)
  /\ includes (js "<p>hi</p>") (js "<html") = false
  /\ includes (js "<p>hi</p>") (js "</html>") = false
  /\ includes (js "<p>hi</p>") (js "<body") = false
  /\ includes (js "<p>hi</p>") (js "</body>") = false.
Proof.
  intros content Hmsg Hrender Hparse Hbody.
  assert (Hclass : classify (BotBubble.renderHTML props) content = CompleteSimpleHTML).
  { unfold classify. rewrite Hrender. reflexivity. }
  split; [exact Hclass|]. split; [|repeat split; reflexivity].
  rewrite <- Hmsg in Hclass, Hparse.
  rewrite (@bot_simple_parsed parser marked props doc Hclass Hparse).
  now rewrite Hbody.
Qed.

Lemma simple_html_round_trip_witness :
  run (BotBubble.setBotMessageRef sampleParser sampleMarked
         (sampleBotProps (Some true) (js "<html><body><p>hi</p></body></html>")))
  = ([SetInnerHTML (js "<p>hi</p>");
      StyleColor (js "a, h1, h2, h3, h4, h5, h6, strong, em, blockquote, li, p")
        (js "#303235");
      LinkTarget (js "a") (js "_blank");
      SetBotMessageElement], inr tt).
Proof.
  apply (@simple_html_round_trip sampleParser sampleMarked
           (sampleBotProps (Some true) (js "<html><body><p>hi</p></body></html>"))
           {| body := Some {| innerHTML := js "<p>hi</p>"; textContent := js "hi" |} |});
    reflexivity.
Defined.

(** C9: on the simple HTML path neither component throws, whatever the
    parser does; when the parser throws, a warning is logged and the bubble
    gets the markdown rendering of the original content, the one the
    markdown strategy writes. *)
Theorem simple_html_parse_failure
    (parser : DOMParser) (marked : Markdown)
    (bot : BotBubble.Props) (agent : AgentReasoningBubble.Props) :
  let content := MessageType.message (BotBubble.message bot) in
  let agentContent := AgentReasoningBubble.agentMessage agent in
  (classify (BotBubble.renderHTML bot) content = CompleteSimpleHTML ->
   snd (run (BotBubble.setBotMessageRef parser marked bot)) = inr tt
   /\ forall e, parser content = inl e ->
        fst (run (BotBubble.setBotMessageRef parser marked bot))
        = [ConsoleWarn (js "Failed to parse HTML, falling back to markdown:");
           SetInnerHTML (marked (BotBubble.markedOptions bot) content);
           SetBotMessageElement] ++ downloadButtons bot)
  /\ (classify (AgentReasoningBubble.renderHTML agent) agentContent = CompleteSimpleHTML ->
      snd (run (AgentReasoningBubble.onMount parser marked agent)) = inr tt
      /\ forall e, parser agentContent = inl e ->
           fst (run (AgentReasoningBubble.onMount parser marked agent))
           = [ConsoleWarn (js "Failed to parse HTML, falling back to markdown:");
              SetInnerHTML
                (marked (AgentReasoningBubble.markedOptions agent)
                   (AgentReasoningBubble.heading agent ++ [10; 10]%N ++ agentContent))]).
Proof.
  intros content agentContent. split; intro Hclass; split.
  - apply setBotMessageRef_returns.
  - intros e Hparse. now rewrite (@bot_simple_failed parser marked bot e Hclass Hparse).
  - apply onMount_returns.
  - intros e Hparse. now rewrite (@agent_simple_failed parser marked agent e Hclass Hparse).
Qed.

Lemma simple_html_parse_failure_witness :
  let content := js "<html><body><p>hi</p></body></html>" in
  run (BotBubble.setBotMessageRef failingParser sampleMarked
         (sampleBotProps (Some true) content))
  = ([ConsoleWarn (js "Failed to parse HTML, falling back to markdown:");
      SetInnerHTML (js "<md><html><body><p>hi</p></body></html></md>");
      SetBotMessageElement], inr tt)
  /\ run (AgentReasoningBubble.onMount failingParser sampleMarked
            (sampleAgentProps (Some true) content))
     = ([ConsoleWarn (js "Failed to parse HTML, falling back to markdown:");
         SetInnerHTML (js "<md>**" ++ [AgentReasoningBubble.checkMark]
                         ++ js " planner** " ++ [10; 10]%N
                         ++ js "<html><body><p>hi</p></body></html></md>")],
        inr tt).
Proof.
  intro content.
  pose proof (@simple_html_parse_failure failingParser sampleMarked
                (sampleBotProps (Some true) content)
                (sampleAgentProps (Some true) content)) as [Hbot Hagent].
  destruct (Hbot eq_refl) as [Hb1 Hb2]. destruct (Hagent eq_refl) as [Ha1 Ha2].
  specialize (Hb2 (js "SyntaxError") eq_refl).
  specialize (Ha2 (js "SyntaxError") eq_refl).
  split; apply injective_projections; cbn [fst snd];
    first [exact Hb1 | exact Hb2 | exact Ha1 | exact Ha2].
Defined.

(** C10: on the simple HTML path, when the parser succeeds and the parsed
    body is absent or has an empty inner content, the whole original
    content is injected; when the inner content is not empty, it alone is
    injected.  [AgentReasoningBubble] does the same after its heading. *)
Theorem simple_html_empty_body
    (parser : DOMParser) (marked : Markdown)
    (bot : BotBubble.Props) (agent : AgentReasoningBubble.Props) (doc : Document) :
  let content := MessageType.message (BotBubble.message bot) in
  let agentContent := AgentReasoningBubble.agentMessage agent in
  let inner := option_map innerHTML (body doc) in
  (classify (BotBubble.renderHTML bot) content = CompleteSimpleHTML ->
   parser content = inr doc ->
   (inner = None \/ inner = Some [] ->
    run (BotBubble.setBotMessageRef parser marked bot)
    = (SetInnerHTML content
         :: simpleDecoration bot ++ [SetBotMessageElement] ++ downloadButtons bot,
       inr tt))
   /\ (forall c s, inner = Some (c :: s) ->
       run (BotBubble.setBotMessageRef parser marked bot)
       = (SetInnerHTML (c :: s)
            :: simpleDecoration bot ++ [SetBotMessageElement] ++ downloadButtons bot,
          inr tt)))
  /\ (classify (AgentReasoningBubble.renderHTML agent) agentContent = CompleteSimpleHTML ->
      parser agentContent = inr doc ->
      (inner = None \/ inner = Some [] ->
       run (AgentReasoningBubble.onMount parser marked agent)
       = ([SetInnerHTML (AgentReasoningBubble.heading agent ++ js "<br/><br/>"
                           ++ agentContent);
           LinkTarget (js "a") (js "_blank")], inr tt))
      /\ (forall c s, inner = Some (c :: s) ->
          run (AgentReasoningBubble.onMount parser marked agent)
          = ([SetInnerHTML (AgentReasoningBubble.heading agent ++ js "<br/><br/>"
                              ++ c :: s);
              LinkTarget (js "a") (js "_blank")], inr tt))).
Proof.
  intros content agentContent inner. split; intros Hclass Hparse; split.
  - intro Hempty. rewrite (@bot_simple_parsed parser marked bot doc Hclass Hparse).
    fold inner content. now rewrite (@orElse_absent inner content Hempty).
  - intros c s Hinner. rewrite (@bot_simple_parsed parser marked bot doc Hclass Hparse).
    fold inner. now rewrite (@orElse_present inner _ c s Hinner).
  - intro Hempty. rewrite (@agent_simple_parsed parser marked agent doc Hclass Hparse).
    fold inner agentContent. now rewrite (@orElse_absent inner agentContent Hempty).
  - intros c s Hinner. rewrite (@agent_simple_parsed parser marked agent doc Hclass Hparse).
    fold inner. now rewrite (@orElse_present inner _ c s Hinner).
Qed.

Lemma simple_html_empty_body_witness :
  let content := js "<html><head></head></body></html>" in
  run (BotBubble.setBotMessageRef sampleParser sampleMarked
         (sampleBotProps (Some true) content))
  = (SetInnerHTML content
       :: simpleDecoration (sampleBotProps (Some true) content)
       ++ [SetBotMessageElement], inr tt)
  /\ run (AgentReasoningBubble.onMount sampleParser sampleMarked
            (sampleAgentProps (Some true) content))
     = ([SetInnerHTML (js "**" ++ [AgentReasoningBubble.checkMark]
                         ++ js " planner** <br/><br/>" ++ content);
         LinkTarget (js "a") (js "_blank")], inr tt).
Proof.
  intro content.
  pose proof (@simple_html_empty_body sampleParser sampleMarked
                (sampleBotProps (Some true) content)
                (sampleAgentProps (Some true) content)
                {| body := Some {| innerHTML := []; textContent := [] |} |})
    as [Hbot Hagent].
  destruct (Hbot eq_refl eq_refl) as [Hb _].
  destruct (Hagent eq_refl eq_refl) as [Ha _].
  split; [apply Hb | apply Ha]; right; reflexivity.
Defined.

(* ===================================================================== *)
(** ** Which strategy is taken *)
(* ===================================================================== *)

(** C1, amended: with [renderHTML] on, every content that starts with a
    doctype or html tag and contains a script tag and both closing tags is
    classified [CompleteRichHTML], and [BotBubble] renders it in the
    iframe. *)
Theorem script_and_closing_tags_rich
    (parser : DOMParser) (marked : Markdown) (props : BotBubble.Props) :
  let content := MessageType.message (BotBubble.message props) in
  truthy (BotBubble.renderHTML props) = true ->
  isFullHTMLDocument content = true ->
  includes content (js "<script") = true ->
  includes content (js "</body>") = true ->
  includes content (js "</html>") = true ->
  classify (BotBubble.renderHTML props) content = CompleteRichHTML
  /\ run (BotBubble.setBotMessageRef parser marked props)
     = (iframeSetup content ++ [SetBotMessageElement] ++ downloadButtons props, inr tt).
Proof.
  intros content Hr Hfull Hscript Hbody Hhtml.
  pose proof (classify_rich _ _ Hr Hfull Hscript Hbody Hhtml) as Hclass.
  split; [exact Hclass|]. now apply bot_rich.
Qed.

Lemma script_and_closing_tags_rich_witness :
  let content := js "<html><body><script>draw()</script></body></html>" in
  classify (Some true) content = CompleteRichHTML
  /\ run (BotBubble.setBotMessageRef sampleParser sampleMarked
            (sampleBotProps (Some true) content))
     = (iframeSetup content ++ [SetBotMessageElement], inr tt).
Proof.
  intro content.
  apply (@script_and_closing_tags_rich sampleParser sampleMarked
           (sampleBotProps (Some true) content)); reflexivity.
Defined.

(** C2: a content that does not start, once trimmed, with a doctype or html
    tag is classified [PlainMarkdown], whatever else it contains and
    whatever [renderHTML] is, and [BotBubble] renders it as markdown. *)
Theorem not_full_document_plain
    (parser : DOMParser) (marked : Markdown) (props : BotBubble.Props) :
  let content := MessageType.message (BotBubble.message props) in
  isFullHTMLDocument content = false ->
  classify (BotBubble.renderHTML props) content = PlainMarkdown
  /\ run (BotBubble.setBotMessageRef parser marked props)
     = (SetInnerHTML (marked (BotBubble.markedOptions props) content)
          :: markdownDecoration props ++ [SetBotMessageElement] ++ downloadButtons props,
        inr tt).
Proof.
  intros content Hfull.
  pose proof (classify_not_full (BotBubble.renderHTML props) _ Hfull) as Hclass.
  split; [exact Hclass|]. now apply bot_plain_markdown.
Qed.

Lemma not_full_document_plain_witness :
  let content := js "Here it is: <script>draw()</script></body></html>" in
  classify (Some true) content = PlainMarkdown
  /\ fst (run (BotBubble.setBotMessageRef sampleParser sampleMarked
                 (sampleBotProps (Some true) content)))
     = SetInnerHTML (js "<md>Here it is: <script>draw()</script></body></html></md>")
         :: markdownDecoration (sampleBotProps (Some true) content)
         ++ [SetBotMessageElement].
Proof.
  intro content.
  destruct (@not_full_document_plain sampleParser sampleMarked
              (sampleBotProps (Some true) content) eq_refl) as [Hclass Hrun].
  split; [exact Hclass|]. rewrite Hrun. reflexivity.
Defined.

(* ===================================================================== *)
(** ** Streaming: a content that grows *)
(* ===================================================================== *)

Lemma startsWith_app_l (s t pat : jsstring) :
  startsWith s pat = true -> startsWith (s ++ t) pat = true.
Proof.
  revert s. induction pat as [|p pat IH]; intros s H; [apply startsWith_nil|].
  destruct s as [|c s]; [discriminate|].
  cbn [app startsWith] in *. apply andb_true_iff in H as [Hc H].
  rewrite Hc. now apply IH.
Qed.

Lemma includes_app_l (s t pat : jsstring) :
  includes s pat = true -> includes (s ++ t) pat = true.
Proof.
  induction s as [|c s IH]; intro H.
  - cbn [includes] in H. rewrite orb_false_r in H.
    apply includes_startsWith. now apply (startsWith_app_l [] t).
  - cbn [app includes] in *. apply orb_true_iff in H as [H | H].
    + pose proof (startsWith_app_l (c :: s) t pat H) as H'.
      cbn [app] in H'. now rewrite H'.
    + rewrite (IH H). apply orb_true_r.
Qed.

Lemma trimStart_app (s t : jsstring) :
  trimStart s <> [] -> trimStart (s ++ t) = trimStart s ++ t.
Proof.
  induction s as [|c s IH]; intro H; [now contradiction H|].
  cbn [app trimStart] in *. destruct (isWhiteSpace c); [now apply IH | reflexivity].
Qed.

Lemma trimStart_blank_app (s t : jsstring) :
  trimStart s = [] -> trimStart (s ++ t) = trimStart t.
Proof.
  induction s as [|c s IH]; intro H; [reflexivity|].
  cbn [app trimStart] in *. destruct (isWhiteSpace c); [now apply IH | discriminate].
Qed.

Lemma trimStart_suffix (s : jsstring) : exists w, s = w ++ trimStart s.
Proof.
  induction s as [|c s [w IH]]; [now exists []|].
  cbn [trimStart]. destruct (isWhiteSpace c).
  - exists (c :: w). cbn [app]. now f_equal.
  - now exists [].
Qed.

(** Text added at the end only adds to what [trimEnd] and [trim] give. *)
Lemma trimEnd_extends (x t : jsstring) : exists r, trimEnd (x ++ t) = trimEnd x ++ r.
Proof.
  unfold trimEnd. rewrite rev_app_distr.
  destruct (trimStart (rev t)) as [|c u] eqn:Ht.
  - rewrite (trimStart_blank_app _ _ Ht). exists []. now rewrite app_nil_r.
  - rewrite trimStart_app by congruence. rewrite Ht, rev_app_distr, rev_involutive.
    destruct (trimStart_suffix (rev x)) as [w Hw].
    exists (rev w ++ rev (c :: u)).
    rewrite app_assoc. f_equal.
    rewrite <- rev_app_distr, <- Hw. now rewrite rev_involutive.
Qed.

Lemma trim_extends (s t : jsstring) :
  trim s <> [] -> exists r, trim (s ++ t) = trim s ++ r.
Proof.
  intro H. unfold trim in *.
  rewrite trimStart_app.
  - apply trimEnd_extends.
  - intro Hs. apply H. now rewrite Hs.
Qed.

Lemma startsWithIgnoreCase_app_l (s t pat : jsstring) :
  startsWithIgnoreCase s pat = true -> startsWithIgnoreCase (s ++ t) pat = true.
Proof.
  revert s. induction pat as [|p pat IH]; intros s H;
    [now destruct (s ++ t)|].
  destruct s as [|c s]; [discriminate|].
  cbn [app startsWithIgnoreCase] in *. apply andb_true_iff in H as [Hc H].
  rewrite Hc. now apply IH.
Qed.

Lemma htmlTagRegExp_test_app_l (s t : jsstring) :
  htmlTagRegExp_test s = true -> htmlTagRegExp_test (s ++ t) = true.
Proof.
  unfold htmlTagRegExp_test. cbv zeta. intro H.
  apply andb_true_iff in H as [Hstart Hnext].
  assert (Hne : trimStart s <> []) by (intro E; now rewrite E in Hstart).
  rewrite trimStart_app by exact Hne.
  rewrite (startsWithIgnoreCase_app_l _ t _ Hstart). cbn [andb].
  destruct (trimStart s) as [|c1 [|c2 [|c3 [|c4 [|c5 [|c6 u]]]]]]; try discriminate.
  exact Hnext.
Qed.

Lemma isFullHTMLDocument_app (s t : jsstring) :
  isFullHTMLDocument s = true -> isFullHTMLDocument (s ++ t) = true.
Proof.
  unfold isFullHTMLDocument. cbv zeta. intro H.
  assert (Hne : trim s <> []).
  { intro E. rewrite E in H. discriminate. }
  destruct (trim_extends s t Hne) as [r ->].
  rewrite !orb_true_iff in *. destruct H as [[H | H] | H].
  - left. left. now apply startsWith_app_l.
  - left. right. now apply startsWith_app_l.
  - right. now apply htmlTagRegExp_test_app_l.
Qed.

Lemma isCompleteHTMLDocument_app (s t : jsstring) :
  isCompleteHTMLDocument s = true -> isCompleteHTMLDocument (s ++ t) = true.
Proof.
  unfold isCompleteHTMLDocument. cbv zeta. rewrite !andb_true_iff.
  intros [H1 H2]. split; now apply includes_app_l.
Qed.

Lemma needsIframeRendering_app (s t : jsstring) :
  needsIframeRendering s = true -> needsIframeRendering (s ++ t) = true.
Proof.
  unfold needsIframeRendering. cbv zeta. rewrite !orb_true_iff.
  intros [[[H | H] | [H | H]] | [H | H]];
    apply (includes_app_l _ t) in H; tauto.
Qed.

(** X1: text added at the end of a content never takes away what the
    three content predicates have found: a full document stays full, a
    complete one complete, one that needs the iframe keeps needing it. *)
Theorem predicates_kept_when_streaming (s t : jsstring) :
  (isFullHTMLDocument s = true -> isFullHTMLDocument (s ++ t) = true)
  /\ (isCompleteHTMLDocument s = true -> isCompleteHTMLDocument (s ++ t) = true)
  /\ (needsIframeRendering s = true -> needsIframeRendering (s ++ t) = true).
Proof.
  split; [|split].
  - apply isFullHTMLDocument_app.
  - apply isCompleteHTMLDocument_app.
  - apply needsIframeRendering_app.
Qed.

Lemma predicates_kept_when_streaming_witness :
  isFullHTMLDocument (js " <html><body><canvas>" ++ js "</canvas></body></html>") = true
  /\ isCompleteHTMLDocument (js "<p></body></html>" ++ js " ") = true
  /\ needsIframeRendering (js " <html><body><canvas>" ++ js "</canvas></body></html>") = true.
Proof.
  split; [|split].
  - apply (proj1 (predicates_kept_when_streaming _ _)). reflexivity.
  - apply (proj1 (proj2 (predicates_kept_when_streaming _ _))). reflexivity.
  - apply (proj2 (proj2 (predicates_kept_when_streaming _ _))). reflexivity.
Defined.

(** The classification as a table of the four guards. *)
Lemma classify_cases (renderHTML : option bool) (content : jsstring) :
  classify renderHTML content
  = if truthy renderHTML && isFullHTMLDocument content
    then if isCompleteHTMLDocument content
         then if needsIframeRendering content
              then CompleteRichHTML else CompleteSimpleHTML
         else IncompleteHTML
    else PlainMarkdown.
Proof.
  unfold classify.
  destruct (truthy renderHTML), (isFullHTMLDocument content),
    (isCompleteHTMLDocument content), (needsIframeRendering content); reflexivity.
Qed.

(** X2: while a content grows at its end, with [renderHTML] unchanged, its
    classification only moves forward: a rich document stays rich, a simple
    one stays simple or becomes rich, and a content once taken as HTML is
    never rendered as markdown again. *)
Theorem classification_moves_forward
    (renderHTML : option bool) (s t : jsstring) :
  (classify renderHTML s = CompleteRichHTML ->
   classify renderHTML (s ++ t) = CompleteRichHTML)
  /\ (classify renderHTML s = CompleteSimpleHTML ->
      classify renderHTML (s ++ t) = CompleteSimpleHTML
      \/ classify renderHTML (s ++ t) = CompleteRichHTML)
  /\ (classify renderHTML s <> PlainMarkdown ->
      classify renderHTML (s ++ t) <> PlainMarkdown).
Proof.
  rewrite !classify_cases.
  pose proof (isFullHTMLDocument_app s t) as Hfull.
  pose proof (isCompleteHTMLDocument_app s t) as Hcomplete.
  pose proof (needsIframeRendering_app s t) as Hneeds.
  destruct (truthy renderHTML); cbn [andb];
    [|repeat split; intros; congruence].
  destruct (isFullHTMLDocument s);
    [rewrite (Hfull eq_refl) | repeat split; intros; congruence].
  split; [|split].
  - destruct (isCompleteHTMLDocument s); [|discriminate].
    rewrite (Hcomplete eq_refl).
    destruct (needsIframeRendering s); [|discriminate].
    now rewrite (Hneeds eq_refl).
  - destruct (isCompleteHTMLDocument s); [|discriminate].
    rewrite (Hcomplete eq_refl). intros _.
    destruct (needsIframeRendering (s ++ t)); auto.
  - intros _.
    destruct (isCompleteHTMLDocument (s ++ t)), (needsIframeRendering (s ++ t));
      discriminate.
Qed.

Lemma classification_moves_forward_witness :
  classify (Some true) (js "<html><body><script></script></body></html>" ++ js " bye")
  = CompleteRichHTML
  /\ (classify (Some true) (js "<html><body></body></html>" ++ js "<canvas>")
      = CompleteSimpleHTML
      \/ classify (Some true) (js "<html><body></body></html>" ++ js "<canvas>")
         = CompleteRichHTML)
  /\ classify (Some true) (js "<html><body><p>" ++ js "hi</p>") <> PlainMarkdown.
Proof.
  split; [|split].
  - apply (proj1 (classification_moves_forward _ _ _)). reflexivity.
  - apply (proj1 (proj2 (classification_moves_forward _ _ _))). reflexivity.
  - apply (proj2 (proj2 (classification_moves_forward _ _ _))). discriminate.
Defined.

(** X3: the bubble takes the HTML layout exactly when its content is not
    rendered as markdown. *)
Theorem html_layout_iff_not_markdown (props : BotBubble.Props) :
  BotBubble.isHTMLContent props = true <->
  classify (BotBubble.renderHTML props)
    (MessageType.message (BotBubble.message props)) <> PlainMarkdown.
Proof.
  unfold BotBubble.isHTMLContent. cbv zeta.
  rewrite classify_cases, orElse_nil.
  set (content := MessageType.message (BotBubble.message props)).
  destruct (truthy (BotBubble.renderHTML props) && isFullHTMLDocument content).
  - split; [|reflexivity]. intros _.
    destruct (isCompleteHTMLDocument content), (needsIframeRendering content);
      discriminate.
  - split; [discriminate | congruence].
Qed.

Lemma html_layout_iff_not_markdown_witness :
  BotBubble.isHTMLContent (sampleBotProps (Some true) (js "<html><body><p>hi")) = true.
Proof.
  apply (proj2 (html_layout_iff_not_markdown
                  (sampleBotProps (Some true) (js "<html><body><p>hi")))).
  discriminate.
Defined.

(* ===================================================================== *)
(** ** What the renders do and never do *)
(* ===================================================================== *)

Lemma sanitizeOption_off (renderHTML : option bool) :
  truthy renderHTML = false -> sanitizeOption renderHTML = true.
Proof. destruct renderHTML as [[|]|]; [discriminate | reflexivity | reflexivity]. Qed.

(** X4: with [renderHTML] off or not given, for every message that is not
    empty, both components write the markdown rendering made with
    [sanitize] on, and nothing else into the bubble: no iframe, no parsed
    document.  For an empty message the span of [AgentReasoningBubble] is
    not rendered and its [onMount] writes nothing. *)
Theorem render_html_off_sanitized
    (parser : DOMParser) (marked : Markdown)
    (bot : BotBubble.Props) (agent : AgentReasoningBubble.Props) :
  (truthy (BotBubble.renderHTML bot) = false ->
   MessageType.message (BotBubble.message bot) <> [] ->
   run (BotBubble.setBotMessageRef parser marked bot)
   = (SetInnerHTML (marked {| isNoP := true; sanitize := true |}
                      (MessageType.message (BotBubble.message bot)))
        :: markdownDecoration bot ++ [SetBotMessageElement] ++ downloadButtons bot,
      inr tt))
  /\ (truthy (AgentReasoningBubble.renderHTML agent) = false ->
      AgentReasoningBubble.agentMessage agent <> [] ->
      run (AgentReasoningBubble.onMount parser marked agent)
      = ([SetInnerHTML (marked {| isNoP := true; sanitize := true |}
                          (AgentReasoningBubble.heading agent ++ [10; 10]%N
                             ++ AgentReasoningBubble.agentMessage agent));
          LinkTarget (js "a") (js "_blank")], inr tt))
  /\ (AgentReasoningBubble.agentMessage agent = [] ->
      run (AgentReasoningBubble.onMount parser marked agent) = ([], inr tt)).
Proof.
  split; [|split].
  - intros Hoff _. rewrite bot_plain_markdown.
    + unfold BotBubble.markedOptions. now rewrite (sanitizeOption_off _ Hoff).
    + apply classify_plain. now rewrite Hoff.
  - intros Hoff Hne. rewrite agent_plain_markdown.
    + unfold AgentReasoningBubble.markedOptions. now rewrite (sanitizeOption_off _ Hoff).
    + exact Hne.
    + apply classify_plain. now rewrite Hoff.
  - apply agent_empty_message.
Qed.

Lemma render_html_off_sanitized_witness :
  let content := js "<html><body><script>draw()</script></body></html>" in
  let marked := fun o src => if sanitize o then js "safe:" ++ src else src in
  fst (run (BotBubble.setBotMessageRef failingParser marked
              (sampleBotProps (Some false) content)))
  = SetInnerHTML (js "safe:" ++ content)
      :: markdownDecoration (sampleBotProps (Some false) content)
      ++ [SetBotMessageElement]
  /\ run (AgentReasoningBubble.onMount failingParser marked
            (sampleAgentProps None content))
     = ([SetInnerHTML (js "safe:**" ++ [AgentReasoningBubble.checkMark]
                         ++ js " planner** " ++ [10; 10]%N ++ content);
         LinkTarget (js "a") (js "_blank")], inr tt)
  /\ run (AgentReasoningBubble.onMount failingParser marked
            (sampleAgentProps (Some true) [])) = ([], inr tt).
Proof.
  intros content marked.
  pose proof (@render_html_off_sanitized failingParser marked
                (sampleBotProps (Some false) content)
                (sampleAgentProps None content)) as [Hbot [Hagent _]].
  pose proof (@render_html_off_sanitized failingParser marked
                (sampleBotProps (Some false) content)
                (sampleAgentProps (Some true) [])) as [_ [_ Hempty]].
  split; [|split].
  - rewrite (Hbot eq_refl); [reflexivity | discriminate].
  - rewrite (Hagent eq_refl); [reflexivity | discriminate].
  - apply Hempty. reflexivity.
Defined.

(** X6: the parser is consulted on the simple and the incomplete path only:
    a content rendered as markdown or in the iframe is rendered alike
    whatever the parser is. *)
Theorem parser_not_consulted
    (parser1 parser2 : DOMParser) (marked : Markdown)
    (bot : BotBubble.Props) (agent : AgentReasoningBubble.Props) :
  let botClass :=
    classify (BotBubble.renderHTML bot) (MessageType.message (BotBubble.message bot)) in
  let agentClass :=
    classify (AgentReasoningBubble.renderHTML agent)
      (AgentReasoningBubble.agentMessage agent) in
  (botClass = PlainMarkdown \/ botClass = CompleteRichHTML ->
   run (BotBubble.setBotMessageRef parser1 marked bot)
   = run (BotBubble.setBotMessageRef parser2 marked bot))
  /\ (agentClass = PlainMarkdown \/ agentClass = CompleteRichHTML ->
      run (AgentReasoningBubble.onMount parser1 marked agent)
      = run (AgentReasoningBubble.onMount parser2 marked agent)).
Proof.
  intros botClass agentClass. split; intros [H | H]; run_render;
    try destruct (AgentReasoningBubble.botMessageEl agent);
    fold botClass agentClass; rewrite ?H; reflexivity.
Qed.

Lemma parser_not_consulted_witness :
  run (BotBubble.setBotMessageRef sampleParser sampleMarked
         (sampleBotProps (Some true) (js "<html><canvas></body></html>")))
  = run (BotBubble.setBotMessageRef failingParser sampleMarked
           (sampleBotProps (Some true) (js "<html><canvas></body></html>"))).
Proof.
  apply (proj1 (@parser_not_consulted sampleParser failingParser sampleMarked
                  (sampleBotProps (Some true) (js "<html><canvas></body></html>"))
                  (sampleAgentProps None (js "x")))).
  right. reflexivity.
Defined.

Lemma loadingText_last (text : jsstring) :
  loadingText text <> [] /\ last (loadingText text) 0%N = hourglass.
Proof.
  destruct text as [|c t]; cbn [loadingText].
  - split; [discriminate | reflexivity].
  - split; [discriminate|].
    rewrite app_assoc. apply last_last.
Qed.

(** X7: whatever the parser does and whatever the content is,
    [extractTextFromIncompleteHTML] returns a text that is not empty and
    ends with the hourglass; the text is the loading placeholder when the
    parser throws, when the document has no body and when the text of the
    body is empty or white space only. *)
Theorem extracted_text_never_blank (parser : DOMParser) (content : jsstring) :
  exists text,
    extractTextFromIncompleteHTML parser content = inr text
    /\ text <> []
    /\ last text 0%N = hourglass
    /\ (extractedBodyText parser content = [] -> text = loadingContent).
Proof.
  exists (loadingText (extractedBodyText parser content)).
  split; [apply extractTextFromIncompleteHTML_returns|].
  split; [apply loadingText_last|].
  split; [apply loadingText_last|].
  intros ->. reflexivity.
Qed.

Lemma extracted_text_never_blank_witness :
  extractTextFromIncompleteHTML
    (fun _ => inr {| body := Some {| innerHTML := js "<p> </p>"; textContent := js "  " |} |})
    (js "<html><body><p> ")
  = inr loadingContent.
Proof.
  destruct (extracted_text_never_blank
              (fun _ => inr {| body := Some {| innerHTML := js "<p> </p>";
                                               textContent := js "  " |} |})
              (js "<html><body><p> ")) as [text [Hret [_ [_ Hblank]]]].
  rewrite Hret. f_equal. apply Hblank. reflexivity.
Defined.

(** X8: for a content classified [IncompleteHTML], [AgentReasoningBubble]
    assigns the extracted text, after the agent heading and two line
    breaks, to [innerHTML]: the text is parsed as markup there, where
    [BotBubble] assigns it to [textContent]. *)
Theorem agent_incomplete_html_as_markup
    (parser : DOMParser) (marked : Markdown) (props : AgentReasoningBubble.Props) :
  let content := AgentReasoningBubble.agentMessage props in
  classify (AgentReasoningBubble.renderHTML props) content = IncompleteHTML ->
  run (AgentReasoningBubble.onMount parser marked props)
  = ([SetInnerHTML (AgentReasoningBubble.heading props ++ js "<br/><br/>"
                      ++ loadingText (extractedBodyText parser content))],
     inr tt).
Proof.
  intros content Hclass. subst content. run_render.
  rewrite agent_bound by (rewrite Hclass; discriminate).
  rewrite Hclass.
  rewrite extractTextFromIncompleteHTML_returns. reflexivity.
Qed.

Lemma agent_incomplete_html_as_markup_witness :
  run (AgentReasoningBubble.onMount sampleParser sampleMarked
         (sampleAgentProps (Some true) (js "<html><body>&lt;script&gt;")))
  = ([SetInnerHTML (js "**" ++ [AgentReasoningBubble.checkMark]
                      ++ js " planner** <br/><br/><script> " ++ [hourglass])],
     inr tt).
Proof.
  apply (@agent_incomplete_html_as_markup sampleParser sampleMarked
           (sampleAgentProps (Some true) (js "<html><body>&lt;script&gt;"))).
  reflexivity.
Defined.

(* ===================================================================== *)
(** ** The iframe document and its sizing *)
(* ===================================================================== *)

(** X9: inserting the override stylesheet drops and alters nothing: the
    result is the content, cut in two at some place, with the stylesheet in
    between. *)
Theorem override_stylesheet_keeps_content (messageContent : jsstring) :
  exists pre post,
    messageContent = pre ++ post
    /\ insertCssOverride messageContent = pre ++ cssOverride ++ post.
Proof.
  unfold insertCssOverride.
  destruct (includes messageContent (js "</head>")) eqn:H1.
  - destruct (@replace_first messageContent (js "</head>") (cssOverride ++ js "</head>")
                eq_refl H1) as [pre [post [Hs [Hr _]]]].
    exists pre, (js "</head>" ++ post). split; [exact Hs|].
    rewrite Hr. now rewrite <- app_assoc.
  - destruct (includes messageContent (js "</style>")) eqn:H2.
    + destruct (@lastIndexFrom_spec (js "</style>") messageContent 0%Z ltac:(lia) H2)
        as [k [Hidx [Hk [Hocc _]]]].
      assert (Hlen : k + 8 <= length messageContent).
      { apply occursAt_split in Hocc as [pre [post [Hs Hpre]]]; [|exact Hk].
        rewrite Hs, !length_app. simpl. lia. }
      exists (firstn (k + 8) messageContent), (skipn (k + 8) messageContent).
      split; [symmetry; apply firstn_skipn|].
      unfold lastIndexOf. rewrite Hidx.
      replace (0 + Z.of_nat k + 8)%Z with (Z.of_nat (k + 8)) by lia.
      now rewrite slice_firstn, sliceFrom_skipn by exact Hlen.
    + destruct (includes messageContent (js "<head>")) eqn:H3.
      * destruct (@replace_first messageContent (js "<head>") (js "<head>" ++ cssOverride)
                    eq_refl H3) as [pre [post [Hs [Hr _]]]].
        exists (pre ++ js "<head>"), post. split.
        -- rewrite Hs. now rewrite <- app_assoc.
        -- rewrite Hr. now rewrite <- !app_assoc.
      * exists [], messageContent. split; reflexivity.
Qed.

Section Barrier.

Variable replacement : jsstring.
Variable p : N.
Variable ps : jsstring.
Hypothesis plain : existsb (N.eqb 36) replacement = false.

Let R (x : jsstring) : jsstring := replaceAllFrom [] (p :: ps) replacement 0 x.

(** With a plain replacement text, the result depends on the text still to
    scan only. *)
Lemma replaceAllFrom_any (n : nat) :
  forall str position rest, length rest <= n ->
    replaceAllFrom str (p :: ps) replacement position rest = R rest.
Proof using plain.
  unfold R. induction n as [|n IH]; intros str position rest Hlen.
  - destruct rest; [|simpl in Hlen; lia].
    now rewrite !replaceAllFrom_nil.
  - destruct rest as [|c rest]; [now rewrite !replaceAllFrom_nil|].
    rewrite !replaceAllFrom_cons by exact plain.
    destruct (startsWith (c :: rest) (p :: ps)).
    + f_equal. rewrite IH by (rewrite length_skipn; simpl in Hlen; lia).
      symmetry. apply IH. rewrite length_skipn. simpl in Hlen. lia.
    + f_equal. rewrite IH by (simpl in Hlen; lia).
      symmetry. apply IH. simpl in Hlen. lia.
Qed.

Lemma replaceAll_R (s : jsstring) : replaceAll s (p :: ps) replacement = R s.
Proof using plain.
  unfold replaceAll. apply (@replaceAllFrom_any (length s)). lia.
Qed.

Lemma R_cons (c : N) (rest : jsstring) :
  R (c :: rest)
  = if startsWith (c :: rest) (p :: ps)
    then replacement ++ R (skipn (length ps) rest)
    else c :: R rest.
Proof using plain.
  unfold R at 1. rewrite replaceAllFrom_cons by exact plain.
  destruct (startsWith (c :: rest) (p :: ps)).
  - f_equal. apply (@replaceAllFrom_any (length (skipn (length ps) rest))). lia.
  - f_equal. apply (@replaceAllFrom_any (length rest)). lia.
Qed.

(** A code unit foreign to the pattern stops every occurrence before it. *)
Lemma startsWith_barrier (pat : jsstring) (b : N) :
  existsb (N.eqb b) pat = false ->
  forall s y, startsWith (s ++ b :: y) pat = startsWith s pat.
Proof.
  clear plain R. induction pat as [|q pat IH]; intros Hb s y.
  - now rewrite !startsWith_nil.
  - cbn [existsb] in Hb. apply orb_false_iff in Hb as [Hq Hb].
    destruct s as [|c s]; cbn [app startsWith].
    + now rewrite Hq.
    + f_equal. now apply IH.
Qed.

Lemma R_foreign (b : N) (y : jsstring) :
  existsb (N.eqb b) (p :: ps) = false -> R (b :: y) = b :: R y.
Proof using plain.
  intro Hb. rewrite R_cons.
  cbn [existsb] in Hb. apply orb_false_iff in Hb as [Hq _].
  cbn [startsWith]. now rewrite Hq.
Qed.

Lemma R_barrier (b : N) (y : jsstring) :
  existsb (N.eqb b) (p :: ps) = false ->
  forall n x, length x <= n -> R (x ++ b :: y) = R x ++ R (b :: y).
Proof using plain.
  intro Hb. induction n as [|n IH]; intros x Hlen.
  - destruct x; [reflexivity | simpl in Hlen; lia].
  - destruct x as [|c x]; [reflexivity|].
    cbn [app]. rewrite (R_cons c (x ++ b :: y)), (R_cons c x).
    pose proof (startsWith_barrier (p :: ps) b Hb (c :: x) y) as Hsame.
    cbn [app] in Hsame. rewrite Hsame.
    destruct (startsWith (c :: x) (p :: ps)) eqn:Hhere.
    + apply startsWith_length in Hhere. simpl in Hhere.
      rewrite skipn_app.
      replace (length ps - length x) with 0 by lia. cbn [skipn].
      rewrite IH by (rewrite length_skipn; simpl in Hlen; lia).
      now rewrite app_assoc.
    + cbn [app]. f_equal. apply IH. simpl in Hlen. lia.
Qed.

Lemma R_foreign_block (u y : jsstring) :
  disjointFrom u (p :: ps) = true -> R (u ++ y) = u ++ R y.
Proof using plain.
  induction u as [|b u IH]; intro Hu; [reflexivity|].
  unfold disjointFrom in Hu. cbn [forallb] in Hu.
  apply andb_true_iff in Hu as [Hb Hu]. apply negb_true_iff in Hb.
  cbn [app]. rewrite (@R_foreign b (u ++ y) Hb). f_equal. now apply IH.
Qed.

Lemma R_clean (n : nat) :
  forall x, length x <= n -> includes x (p :: ps) = false -> R x = x.
Proof using plain.
  induction n as [|n IH]; intros x Hlen Hx.
  - destruct x; [reflexivity | simpl in Hlen; lia].
  - destruct x as [|c x]; [reflexivity|].
    apply includes_false_cons in Hx as [Hhere Hrest].
    rewrite R_cons, Hhere. f_equal. apply IH; [simpl in Hlen; lia | exact Hrest].
Qed.

End Barrier.

(** Where the stylesheet is put: at the very start, right after a [>] or
    right before a [<]. *)
Lemma insertCssOverride_cut (messageContent : jsstring) :
  exists pre post,
    messageContent = pre ++ post
    /\ insertCssOverride messageContent = pre ++ cssOverride ++ post
    /\ (pre = [] \/ (exists pre1, pre = pre1 ++ [62%N])
        \/ (exists post1, post = 60%N :: post1)).
Proof.
  unfold insertCssOverride.
  destruct (includes messageContent (js "</head>")) eqn:H1.
  - destruct (@replace_first messageContent (js "</head>") (cssOverride ++ js "</head>")
                eq_refl H1) as [pre [post [Hs [Hr _]]]].
    exists pre, (js "</head>" ++ post). repeat split; [exact Hs | |].
    + rewrite Hr. now rewrite <- app_assoc.
    + right. right. now exists (js "/head>" ++ post).
  - destruct (includes messageContent (js "</style>")) eqn:H2.
    + destruct (@lastIndexFrom_spec (js "</style>") messageContent 0%Z ltac:(lia) H2)
        as [k [Hidx [Hk [Hocc _]]]].
      destruct (occursAt_split _ _ Hk Hocc) as [pre0 [post0 [Hs Hpre]]].
      assert (Hlen : k + 8 <= length messageContent).
      { rewrite Hs, !length_app. simpl. lia. }
      exists (pre0 ++ js "</style>"), post0. repeat split.
      * rewrite Hs. now rewrite <- app_assoc.
      * unfold lastIndexOf. rewrite Hidx.
        replace (0 + Z.of_nat k + 8)%Z with (Z.of_nat (k + 8)) by lia.
        rewrite slice_firstn, sliceFrom_skipn by exact Hlen.
        rewrite <- Hpre. change 8 with (length (js "</style>")).
        rewrite <- length_app. rewrite Hs at 1 2. rewrite (app_assoc pre0).
        rewrite firstn_app_exact, skipn_app_exact. now rewrite <- !app_assoc.
      * right. left. exists (pre0 ++ js "</style"). now rewrite <- app_assoc.
    + destruct (includes messageContent (js "<head>")) eqn:H3.
      * destruct (@replace_first messageContent (js "<head>") (js "<head>" ++ cssOverride)
                    eq_refl H3) as [pre [post [Hs [Hr _]]]].
        exists (pre ++ js "<head>"), post. repeat split.
        -- rewrite Hs. now rewrite <- app_assoc.
        -- rewrite Hr. now rewrite <- !app_assoc.
        -- right. left. exists (pre ++ js "<head"). now rewrite <- app_assoc.
      * exists [], messageContent. repeat split. now left.
Qed.

Lemma replaceMapKey_scan (s : jsstring) :
  replaceMapKey s = replaceAllFrom [] (71%N :: js "OOGLE_MAP_KEY") (js "abc") 0 s.
Proof.
  unfold replaceMapKey.
  change (js "GOOGLE_MAP_KEY") with (71%N :: js "OOGLE_MAP_KEY").
  destruct (includes s (71%N :: js "OOGLE_MAP_KEY")) eqn:H.
  - now apply replaceAll_R.
  - symmetry. now apply (@R_clean (js "abc") 71%N (js "OOGLE_MAP_KEY") eq_refl (length s)).
Qed.

(** X10: the document written into the iframe is the content with every
    placeholder replaced, and the override stylesheet, whole, put into it:
    the replacement never reaches into the stylesheet and the stylesheet
    never splits a placeholder. *)
Theorem iframe_document_keeps_stylesheet (messageContent : jsstring) :
  exists pre post,
    replaceMapKey messageContent = pre ++ post
    /\ modifiedContent messageContent = pre ++ cssOverride ++ post.
Proof.
  destruct (insertCssOverride_cut messageContent)
    as [pre0 [post0 [Hs [Hins Hcut]]]].
  unfold modifiedContent. rewrite Hins, Hs, !replaceMapKey_scan.
  set (K := js "OOGLE_MAP_KEY").
  set (R := replaceAllFrom [] (71%N :: K) (js "abc") 0).
  assert (Hcss : R (pre0 ++ cssOverride ++ post0) = R pre0 ++ cssOverride ++ R post0).
  { assert (Hhead : exists t, cssOverride = 10%N :: t)
      by (eexists; vm_compute; reflexivity).
    destruct Hhead as [t Ht].
    transitivity (R pre0 ++ R (cssOverride ++ post0)).
    - rewrite Ht. cbn [app].
      apply (@R_barrier (js "abc") 71%N K eq_refl 10%N (t ++ post0) eq_refl (length pre0)).
      lia.
    - f_equal. apply (@R_foreign_block (js "abc") 71%N K eq_refl). now vm_compute. }
  exists (R pre0), (R post0). split; [|exact Hcss].
  clear Hcss Hins Hs.
  destruct Hcut as [-> | [[pre1 ->] | [post1 ->]]].
  - reflexivity.
  - pose proof (@R_barrier (js "abc") 71%N K eq_refl 62%N post0 eq_refl
                  (length pre1) pre1 (le_n _)) as H1.
    pose proof (@R_barrier (js "abc") 71%N K eq_refl 62%N [] eq_refl
                  (length pre1) pre1 (le_n _)) as H2.
    pose proof (@R_foreign (js "abc") 71%N K eq_refl 62%N post0 eq_refl) as H3.
    pose proof (@R_foreign (js "abc") 71%N K eq_refl 62%N [] eq_refl) as H4.
    fold R in H1, H2, H3, H4.
    rewrite <- app_assoc. cbn [app].
    rewrite H1, H2, H3, H4. rewrite <- app_assoc. reflexivity.
  - apply (@R_barrier (js "abc") 71%N K eq_refl 60%N post1 eq_refl (length pre0)). lia.
Qed.

(** X11: replacing the placeholder a second time changes nothing, and a
    content without the placeholder is left as it is. *)
Theorem replaceMapKey_idempotent (modified : jsstring) :
  replaceMapKey (replaceMapKey modified) = replaceMapKey modified
  /\ (includes modified mapKeyPlaceholder = false -> replaceMapKey modified = modified).
Proof.
  assert (Hclean : forall s, includes s mapKeyPlaceholder = false -> replaceMapKey s = s).
  { intros s H. unfold replaceMapKey. fold mapKeyPlaceholder. now rewrite H. }
  split; [|apply Hclean].
  apply Hclean. unfold replaceMapKey at 1. fold mapKeyPlaceholder.
  destruct (includes modified mapKeyPlaceholder) eqn:H; [|exact H].
  apply (@replaceAll_clean _ (js "abc") 71%N (js "OOGLE_MAP_KEY"));
    [reflexivity | discriminate | reflexivity].
Qed.

Lemma replaceMapKey_idempotent_witness :
  replaceMapKey (js "<script>init()</script>") = js "<script>init()</script>".
Proof.
  apply (proj2 (replaceMapKey_idempotent (js "<script>init()</script>"))).
  reflexivity.
Defined.

(** X12: [resizeIframe] never throws and never sets a timer.  With the
    measures at hand it sets a height that is at least 500 and at least
    every measure, and then shows the iframe; when reading the document
    throws it warns and shows the iframe; when the document or its body is
    missing it does nothing. *)
Theorem resize_once_with_floor (probe : Result (option Heights)) :
  snd (run (resizeIframe probe)) = inr tt
  /\ (forall e, In e (fst (run (resizeIframe probe))) ->
                forall d delay, e <> SetTimeout d delay)
  /\ (forall h, probe = inr (Some h) ->
        exists styles height,
          fst (run (resizeIframe probe))
          = styles ++ [IframeHeightPx height; IframeStyle (js "opacity") (js "1")]
          /\ (500 <= height)%Z
          /\ (bodyScrollHeight h <= height)%Z /\ (bodyOffsetHeight h <= height)%Z
          /\ (htmlScrollHeight h <= height)%Z /\ (htmlOffsetHeight h <= height)%Z)
  /\ (forall e, probe = inl e ->
        fst (run (resizeIframe probe))
        = [ConsoleWarn (js "Could not resize iframe:");
           IframeStyle (js "opacity") (js "1")])
  /\ (probe = inr None -> fst (run (resizeIframe probe)) = []).
Proof.
  split; [destruct probe as [e|[h|]]; reflexivity|].
  split.
  - destruct probe as [e|[h|]]; cbn; intros x Hin d delay;
      repeat (destruct Hin as [<- | Hin]; [discriminate|]); contradiction.
  - split; [|split].
    + intros h ->.
      exists [IframeBodyStyle (js "margin") (js "0");
              IframeBodyStyle (js "padding") (js "10px");
              IframeBodyStyle (js "overflow") (js "hidden");
              IframeBodyStyle (js "boxSizing") (js "border-box");
              IframeHtmlStyle (js "overflow") (js "hidden")].
      eexists. split; [reflexivity | lia].
    + intros e ->. reflexivity.
    + intros ->. reflexivity.
Qed.

Lemma resize_once_with_floor_witness :
  let h := {| bodyScrollHeight := 620; bodyOffsetHeight := 600;
              htmlScrollHeight := 90; htmlOffsetHeight := 0 |} in
  exists styles height,
    fst (run (resizeIframe (inr (Some h))))
    = styles ++ [IframeHeightPx height; IframeStyle (js "opacity") (js "1")]
    /\ (500 <= height)%Z
    /\ (bodyScrollHeight h <= height)%Z /\ (bodyOffsetHeight h <= height)%Z
    /\ (htmlScrollHeight h <= height)%Z /\ (htmlOffsetHeight h <= height)%Z.
Proof.
  intro h.
  apply (proj1 (proj2 (proj2 (resize_once_with_floor (inr (Some h)))))).
  reflexivity.
Defined.

(* ===================================================================== *)
(** ** Source documents *)
(* ===================================================================== *)

Lemma jsstring_eqb_eq (a b : jsstring) : jsstring_eqb a b = true <-> a = b.
Proof.
  unfold jsstring_eqb. destruct (list_eq_dec N.eq_dec a b); split; congruence.
Qed.

Lemma jsstring_eqb_refl (a : jsstring) : jsstring_eqb a a = true.
Proof. now apply jsstring_eqb_eq. Qed.

Section SourceDocumentFacts.
Import BotBubble.

Variable newURL : jsstring -> Result URL.

Let valid := hasValidURL newURL.
Let loop := removeDuplicateURL_forEach newURL.

Lemma arrayIncludes_app (visited : list jsstring) (u x : jsstring) :
  arrayIncludes (visited ++ [u]) x = arrayIncludes visited x || jsstring_eqb x u.
Proof.
  unfold arrayIncludes. rewrite existsb_app. cbn [existsb]. now rewrite orb_false_r.
Qed.

(** The array of results only grows at its end. *)
Lemma forEach_accumulates (l : list SourceDocument) :
  forall visited acc, loop l visited acc = acc ++ loop l visited [].
Proof.
  unfold loop. induction l as [|src rest IH]; intros visited acc.
  - cbn. now rewrite app_nil_r.
  - cbn [removeDuplicateURL_forEach]. cbv zeta.
    destruct (isSome (isValidURL newURL (source (metadata src)))
              && negb (arrayIncludes visited (source (metadata src)))).
    + rewrite IH, (IH _ ([] ++ [src])). now rewrite <- !app_assoc.
    + destruct (negb (isSome (isValidURL newURL (source (metadata src))))).
      * rewrite IH, (IH _ ([] ++ [src])). now rewrite <- !app_assoc.
      * apply IH.
Qed.

(** One turn of the loop. *)
Lemma forEach_step (src : SourceDocument) (rest : list SourceDocument)
    (visited : list jsstring) :
  loop (src :: rest) visited []
  = if valid src then
      if arrayIncludes visited (sourceOf src) then loop rest visited []
      else src :: loop rest (visited ++ [sourceOf src]) []
    else src :: loop rest visited [].
Proof.
  unfold loop, valid, hasValidURL, sourceOf.
  cbn [removeDuplicateURL_forEach]. cbv zeta.
  destruct (isSome (isValidURL newURL (source (metadata src)))); cbn [andb negb].
  - destruct (arrayIncludes visited (source (metadata src))); cbn [negb];
      [reflexivity|].
    now rewrite forEach_accumulates.
  - now rewrite forEach_accumulates.
Qed.

Lemma forEach_subsequence (l : list SourceDocument) :
  forall visited, Subsequence (loop l visited []) l.
Proof.
  induction l as [|src rest IH]; intro visited; [constructor|].
  rewrite forEach_step.
  destruct (valid src); [destruct (arrayIncludes visited (sourceOf src))|];
    constructor; apply IH.
Qed.

Lemma forEach_invalid_kept (l : list SourceDocument) :
  forall visited,
    filter (fun d => negb (valid d)) (loop l visited [])
    = filter (fun d => negb (valid d)) l.
Proof.
  induction l as [|src rest IH]; intro visited; [reflexivity|].
  rewrite forEach_step. cbn [filter].
  destruct (valid src) eqn:Hv; cbn [negb].
  - destruct (arrayIncludes visited (sourceOf src)); [apply IH|].
    cbn [filter]. rewrite Hv. apply IH.
  - cbn [filter]. rewrite Hv. cbn [negb]. f_equal. apply IH.
Qed.

(** A valid URL that is kept was not visited before. *)
Lemma forEach_kept_new (l : list SourceDocument) :
  forall visited d, In d (loop l visited []) -> valid d = true ->
    arrayIncludes visited (sourceOf d) = false.
Proof.
  induction l as [|src rest IH]; intros visited d Hin Hd; [contradiction|].
  rewrite forEach_step in Hin.
  destruct (valid src) eqn:Hv.
  - destruct (arrayIncludes visited (sourceOf src)) eqn:Hseen.
    + now apply (IH visited).
    + destruct Hin as [<- | Hin]; [exact Hseen|].
      specialize (IH _ _ Hin Hd). rewrite arrayIncludes_app in IH.
      now apply orb_false_iff in IH.
  - destruct Hin as [<- | Hin]; [congruence|]. now apply (IH visited).
Qed.

Lemma forEach_valid_once (l : list SourceDocument) :
  forall visited, NoDup (map sourceOf (filter valid (loop l visited []))).
Proof.
  induction l as [|src rest IH]; intro visited; [constructor|].
  rewrite forEach_step.
  destruct (valid src) eqn:Hv.
  - destruct (arrayIncludes visited (sourceOf src)); [apply IH|].
    cbn [filter]. rewrite Hv. cbn [map]. constructor; [|apply IH].
    intro Hin. apply in_map_iff in Hin as [d [Hsrc Hd]].
    apply filter_In in Hd as [Hd Hvalid].
    pose proof (forEach_kept_new _ _ _ Hd Hvalid) as Hnew.
    rewrite arrayIncludes_app, Hsrc, jsstring_eqb_refl, orb_true_r in Hnew.
    discriminate.
  - cbn [filter]. rewrite Hv. apply IH.
Qed.

(** Every source met is still there afterwards, unless it was visited. *)
Lemma forEach_represented (l : list SourceDocument) :
  forall visited d, In d l ->
    (valid d = true -> arrayIncludes visited (sourceOf d) = false ->
     exists d', In d' (loop l visited []) /\ sourceOf d' = sourceOf d)
    /\ (valid d = false -> In d (loop l visited [])).
Proof.
  induction l as [|src rest IH]; intros visited d Hin; [contradiction|].
  rewrite forEach_step. destruct Hin as [<- | Hin].
  - split.
    + intros Hv Hnew. rewrite Hv, Hnew. exists src. split; [now left | reflexivity].
    + intros Hv. rewrite Hv. now left.
  - split.
    + intros Hv Hnew. destruct (valid src) eqn:Hsrc.
      * destruct (arrayIncludes visited (sourceOf src)) eqn:Hseen.
        -- now apply (proj1 (IH visited d Hin)).
        -- destruct (jsstring_eqb (sourceOf d) (sourceOf src)) eqn:Hsame.
           ++ apply jsstring_eqb_eq in Hsame. exists src. split; [now left | congruence].
           ++ destruct (proj1 (IH (visited ++ [sourceOf src]) d Hin) Hv)
                as [d' [Hd' Hs]].
              { rewrite arrayIncludes_app, Hnew, Hsame. reflexivity. }
              exists d'. split; [now right | exact Hs].
      * destruct (proj1 (IH visited d Hin) Hv Hnew) as [d' [Hd' Hs]].
        exists d'. split; [now right | exact Hs].
    + intros Hv. destruct (valid src).
      * destruct (arrayIncludes visited (sourceOf src)).
        -- now apply (proj2 (IH visited d Hin)).
        -- right. now apply (proj2 (IH _ d Hin)).
      * right. now apply (proj2 (IH visited d Hin)).
Qed.

(** A list whose valid URLs are new and all different goes through
    unchanged. *)
Lemma forEach_unchanged (l : list SourceDocument) :
  forall visited,
    (forall d, In d l -> valid d = true ->
               arrayIncludes visited (sourceOf d) = false) ->
    NoDup (map sourceOf (filter valid l)) ->
    loop l visited [] = l.
Proof.
  induction l as [|src rest IH]; intros visited Hnew Hdup; [reflexivity|].
  rewrite forEach_step. cbn [filter] in Hdup.
  destruct (valid src) eqn:Hv.
  - rewrite (Hnew src (or_introl eq_refl) Hv). f_equal.
    cbn [map] in Hdup. inversion Hdup as [|u us Hu Hrest]; subst.
    apply IH; [|exact Hrest].
    intros d Hd Hvd. rewrite arrayIncludes_app.
    rewrite (Hnew d (or_intror Hd) Hvd). cbn [orb].
    destruct (jsstring_eqb (sourceOf d) (sourceOf src)) eqn:Hsame; [|reflexivity].
    apply jsstring_eqb_eq in Hsame. exfalso. apply Hu. rewrite <- Hsame.
    apply in_map. apply filter_In. now split.
  - f_equal. apply IH; [|exact Hdup].
    intros d Hd Hvd. apply Hnew; [now right | exact Hvd].
Qed.

End SourceDocumentFacts.

(** X13: [removeDuplicateURL] only leaves documents out: what it returns is
    the list of source documents with some of them removed, in the same
    order, and no document whose source is not a valid URL is removed. *)
Theorem removeDuplicateURL_subsequence
    (newURL : jsstring -> Result BotBubble.URL)
    (sourceDocuments : list BotBubble.SourceDocument) :
  Subsequence (BotBubble.removeDuplicateURL newURL sourceDocuments) sourceDocuments
  /\ filter (fun d => negb (hasValidURL newURL d))
       (BotBubble.removeDuplicateURL newURL sourceDocuments)
     = filter (fun d => negb (hasValidURL newURL d)) sourceDocuments.
Proof.
  split.
  - apply forEach_subsequence.
  - apply forEach_invalid_kept.
Qed.

(** X14: among the documents [removeDuplicateURL] returns, no two have the
    same valid URL as their source. *)
Theorem removeDuplicateURL_valid_once
    (newURL : jsstring -> Result BotBubble.URL)
    (sourceDocuments : list BotBubble.SourceDocument) :
  NoDup (map sourceOf
           (filter (hasValidURL newURL)
              (BotBubble.removeDuplicateURL newURL sourceDocuments))).
Proof. apply forEach_valid_once. Qed.

(** X15: [removeDuplicateURL] loses no source: for every document given,
    a document with the same source is returned, and a document whose
    source is not a valid URL is returned itself. *)
Theorem removeDuplicateURL_represents
    (newURL : jsstring -> Result BotBubble.URL)
    (sourceDocuments : list BotBubble.SourceDocument)
    (d : BotBubble.SourceDocument) :
  In d sourceDocuments ->
  (exists d', In d' (BotBubble.removeDuplicateURL newURL sourceDocuments)
              /\ sourceOf d' = sourceOf d)
  /\ (hasValidURL newURL d = false ->
      In d (BotBubble.removeDuplicateURL newURL sourceDocuments)).
Proof.
  intro Hin.
  destruct (@forEach_represented newURL sourceDocuments [] d Hin) as [Hvalid Hinvalid].
  split; [|exact Hinvalid].
  destruct (hasValidURL newURL d) eqn:Hv.
  - now apply Hvalid.
  - exists d. split; [now apply Hinvalid | reflexivity].
Qed.

(** X16: [removeDuplicateURL] applied to its own result changes nothing,
    and a list in which no valid URL occurs twice is returned as it is. *)
Theorem removeDuplicateURL_idempotent
    (newURL : jsstring -> Result BotBubble.URL)
    (sourceDocuments : list BotBubble.SourceDocument) :
  BotBubble.removeDuplicateURL newURL
    (BotBubble.removeDuplicateURL newURL sourceDocuments)
  = BotBubble.removeDuplicateURL newURL sourceDocuments
  /\ (NoDup (map sourceOf (filter (hasValidURL newURL) sourceDocuments)) ->
      BotBubble.removeDuplicateURL newURL sourceDocuments = sourceDocuments).
Proof.
  split.
  - apply forEach_unchanged; [reflexivity | apply forEach_valid_once].
  - intro Hdup. apply forEach_unchanged; [reflexivity | exact Hdup].
Qed.

Example removeDuplicateURL_ex :
  BotBubble.removeDuplicateURL sampleNewURL sampleSources
  = [ sampleSource (js "https://example.com/a") (js "first");
      sampleSource (js "manual.pdf") (js "page 3");
      sampleSource (js "manual.pdf") (js "page 7");
      sampleSource (js "https://example.com/b") (js "third") ].
Proof. reflexivity. Qed.

Lemma removeDuplicateURL_represents_witness :
  exists d', In d' (BotBubble.removeDuplicateURL sampleNewURL sampleSources)
             /\ sourceOf d' = js "https://example.com/a".
Proof.
  apply (@removeDuplicateURL_represents sampleNewURL sampleSources
           (sampleSource (js "https://example.com/a") (js "second"))).
  right. right. left. reflexivity.
Defined.

Lemma removeDuplicateURL_idempotent_witness :
  BotBubble.removeDuplicateURL sampleNewURL
    [sampleSource (js "https://example.com/a") (js "first");
     sampleSource (js "https://example.com/b") (js "third")]
  = [sampleSource (js "https://example.com/a") (js "first");
     sampleSource (js "https://example.com/b") (js "third")].
Proof.
  apply (proj2 (removeDuplicateURL_idempotent sampleNewURL _)).
  vm_compute. constructor; [intros [H | []]; discriminate H|].
  constructor; [intros []|]. constructor.
Defined.

(* ===================================================================== *)
(** ** Artifacts *)
(* ===================================================================== *)

Lemma typeIs_exclusive (item : FileUpload) (t u : jsstring) :
  jsstring_eqb t u = false -> typeIs item t = true -> typeIs item u = false.
Proof.
  unfold typeIs. destruct (type item) as [s|]; [|discriminate].
  intros Htu Ht. apply jsstring_eqb_eq in Ht. now subst s.
Qed.

(** X17: the three [Show] blocks of [BotBubble]'s [renderArtifacts] exclude
    each other and leave nothing out: every artifact gives exactly one view,
    the same kind of view as in [AgentReasoningBubble]; an html artifact is
    injected as it is, in both. *)
Theorem artifact_one_view
    (marked : Markdown) (bot : BotBubble.Props) (agent : AgentReasoningBubble.Props)
    (item : FileUpload) :
  (exists view, BotBubble.renderArtifacts marked bot item = [view]
     /\ match view, AgentReasoningBubble.renderArtifacts marked agent item with
        | Image _, Image _ => True
        | HtmlBlock html, HtmlBlock html' => html = data item /\ html' = data item
        | MarkdownSpan _, MarkdownSpan _ => True
        | _, _ => False
        end)
  /\ (typeIs item (js "html") = true ->
      BotBubble.renderArtifacts marked bot item = [HtmlBlock (data item)]).
Proof.
  unfold BotBubble.renderArtifacts, AgentReasoningBubble.renderArtifacts.
  destruct (typeIs item (js "png")) eqn:Hpng.
  - rewrite (@typeIs_exclusive item (js "png") (js "html") eq_refl Hpng).
    cbn. split; [eexists; split; [reflexivity | exact I] | discriminate].
  - destruct (typeIs item (js "jpeg")) eqn:Hjpeg.
    + rewrite (@typeIs_exclusive item (js "jpeg") (js "html") eq_refl Hjpeg).
      cbn. split; [eexists; split; [reflexivity | exact I] | discriminate].
    + destruct (typeIs item (js "html")); cbn.
      * split; [eexists; split; [reflexivity | now split] | reflexivity].
      * split; [eexists; split; [reflexivity | exact I] | discriminate].
Qed.

Lemma artifact_one_view_witness :
  BotBubble.renderArtifacts sampleMarked (sampleBotProps None (js "x"))
    {| type := Some (js "html"); data := Some (js "<b>table</b>") |}
  = [HtmlBlock (Some (js "<b>table</b>"))].
Proof.
  apply (proj2 (@artifact_one_view sampleMarked (sampleBotProps None (js "x"))
                  (sampleAgentProps None (js "x"))
                  {| type := Some (js "html"); data := Some (js "<b>table</b>") |})).
  reflexivity.
Defined.

(** One turn of the loop of [agentReasoningArtifacts]. *)
Lemma agent_artifacts_cons (props : AgentReasoningBubble.Props)
    (artifact : option FileUpload) (rest : list (option FileUpload)) :
  AgentReasoningBubble.agentReasoningArtifacts props (artifact :: rest)
  = match artifact with
    | Some a =>
        if typeIs a (js "png") || typeIs a (js "jpeg") then
          match data a with
          | Some d =>
              match AgentReasoningBubble.agentReasoningArtifacts props rest with
              | inl e => inl e
              | inr rest' =>
                  inr (Some {| type := type a;
                               data := Some (uploadFileURL
                                               (AgentReasoningBubble.apiHost props)
                                               (AgentReasoningBubble.chatflowid props)
                                               (AgentReasoningBubble.chatId props)
                                               (replace d storagePrefix [])) |}
                         :: rest')
              end
          | None => inl (js "TypeError")
          end
        else
          match AgentReasoningBubble.agentReasoningArtifacts props rest with
          | inl e => inl e
          | inr rest' => inr (Some a :: rest')
          end
    | None =>
        match AgentReasoningBubble.agentReasoningArtifacts props rest with
        | inl e => inl e
        | inr rest' => inr (None :: rest')
        end
    end.
Proof.
  cbn [AgentReasoningBubble.agentReasoningArtifacts].
  destruct artifact as [a|]; [|reflexivity].
  destruct (typeIs a (js "png") || typeIs a (js "jpeg")); [|reflexivity].
  destruct (data a); reflexivity.
Qed.

(** X18: [agentReasoningArtifacts] throws exactly when some png or jpeg
    artifact has no data; otherwise it returns as many artifacts as it was
    given, with the null entries and every artifact that is no image as
    they were, and every image keeping its type. *)
Theorem agent_artifacts_kept
    (props : AgentReasoningBubble.Props) (artifacts : list (option FileUpload)) :
  ((exists e, AgentReasoningBubble.agentReasoningArtifacts props artifacts = inl e)
   <-> exists a, In (Some a) artifacts
                 /\ typeIs a (js "png") || typeIs a (js "jpeg") = true
                 /\ data a = None)
  /\ forall out,
       AgentReasoningBubble.agentReasoningArtifacts props artifacts = inr out ->
       Forall2
         (fun before after =>
            match before, after with
            | None, None => True
            | Some a, Some b =>
                type b = type a
                /\ (typeIs a (js "png") || typeIs a (js "jpeg") = false -> b = a)
            | _, _ => False
            end)
         artifacts out.
Proof.
  induction artifacts as [|artifact rest [IHthrow IHout]].
  - split.
    + split; [intros [e He]; discriminate | intros [a [[] _]]].
    + intros out Hout. injection Hout as <-. constructor.
  - rewrite agent_artifacts_cons. split.
    + split.
      * intros [e He]. destruct artifact as [a|].
        -- destruct (typeIs a (js "png") || typeIs a (js "jpeg")) eqn:Himg.
           ++ destruct (data a) as [d|] eqn:Hd.
              ** destruct (AgentReasoningBubble.agentReasoningArtifacts props rest)
                   as [e'|rest'] eqn:Hrest; [|discriminate].
                 destruct (proj1 IHthrow (ex_intro _ e' eq_refl)) as [b [Hb Hrest']].
                 exists b. split; [now right | exact Hrest'].
              ** exists a. split; [now left | now split].
           ++ destruct (AgentReasoningBubble.agentReasoningArtifacts props rest)
                as [e'|rest'] eqn:Hrest; [|discriminate].
              destruct (proj1 IHthrow (ex_intro _ e' eq_refl)) as [b [Hb Hrest']].
              exists b. split; [now right | exact Hrest'].
        -- destruct (AgentReasoningBubble.agentReasoningArtifacts props rest)
             as [e'|rest'] eqn:Hrest; [|discriminate].
           destruct (proj1 IHthrow (ex_intro _ e' eq_refl)) as [b [Hb Hrest']].
           exists b. split; [now right | exact Hrest'].
      * intros [b [[Hb | Hb] [Himg Hd]]].
        -- subst artifact. rewrite Himg, Hd. now eexists.
        -- destruct (proj2 IHthrow (ex_intro _ b (conj Hb (conj Himg Hd)))) as [e He].
           rewrite He. destruct artifact as [a|]; [|now eexists].
           destruct (typeIs a (js "png") || typeIs a (js "jpeg")); [|now eexists].
           destruct (data a); now eexists.
    + intros out Hout.
      destruct (AgentReasoningBubble.agentReasoningArtifacts props rest)
        as [e'|rest'] eqn:Hrest.
      * destruct artifact as [a|]; [|discriminate].
        destruct (typeIs a (js "png") || typeIs a (js "jpeg")); [|discriminate].
        destruct (data a); discriminate.
      * specialize (IHout rest' eq_refl).
        destruct artifact as [a|].
        -- destruct (typeIs a (js "png") || typeIs a (js "jpeg")) eqn:Himg.
           ++ destruct (data a); [|discriminate].
              injection Hout as <-. constructor; [|exact IHout].
              split; [reflexivity | intro H; rewrite Himg in H; discriminate H].
           ++ injection Hout as <-. constructor; [|exact IHout]. now split.
        -- injection Hout as <-. constructor; [exact I | exact IHout].
Qed.

Lemma agent_artifacts_kept_witness :
  exists e,
    AgentReasoningBubble.agentReasoningArtifacts (sampleAgentProps None (js "x"))
      [Some {| type := Some (js "html"); data := Some (js "<b>t</b>") |};
       Some {| type := Some (js "jpeg"); data := None |}] = inl e.
Proof.
  apply (proj2 (proj1 (agent_artifacts_kept (sampleAgentProps None (js "x")) _))).
  exists {| type := Some (js "jpeg"); data := None |}.
  split; [right; left; reflexivity | split; reflexivity].
Defined.

(** X19: for an image reference that starts with the storage prefix, the
    two components build the same [src]: the download URL with the api
    host, the chatflow id, the chat id and the name after the prefix; a
    second prefix inside the name is left in place. *)
Theorem prefixed_image_same_src
    (bot : BotBubble.Props) (agent : AgentReasoningBubble.Props)
    (t name : jsstring) :
  jsstring_eqb t (js "png") || jsstring_eqb t (js "jpeg") = true ->
  AgentReasoningBubble.apiHost agent = BotBubble.apiHost bot ->
  AgentReasoningBubble.chatflowid agent = BotBubble.chatflowid bot ->
  AgentReasoningBubble.chatId agent = BotBubble.chatId bot ->
  let item := {| type := Some t; data := Some (storagePrefix ++ name) |} in
  let url := uploadFileURL (BotBubble.apiHost bot) (BotBubble.chatflowid bot)
               (BotBubble.chatId bot) name in
  BotBubble.imageSrc bot item = Some url
  /\ AgentReasoningBubble.agentReasoningArtifacts agent [Some item]
     = inr [Some {| type := Some t; data := Some url |}].
Proof.
  intros Ht Hhost Hflow Hchat item url. split.
  - apply imageSrc_file_storage.
  - unfold item. rewrite (agent_image_always_rewritten agent _ _ Ht).
    rewrite replace_prefix by apply startsWith_app.
    rewrite skipn_app_exact, Hhost, Hflow, Hchat. reflexivity.
Qed.

Lemma prefixed_image_same_src_witness :
  AgentReasoningBubble.agentReasoningArtifacts (sampleAgentProps None (js "x"))
    [Some {| type := Some (js "png");
             data := Some (js "FILE-STORAGE::FILE-STORAGE::chart.png") |}]
  = inr [Some {| type := Some (js "png");
                 data := Some (js "http://localhost:3000/api/v1/get-upload-file?chatflowId=cf&chatId=c1&fileName=FILE-STORAGE::chart.png") |}].
Proof.
  apply (@prefixed_image_same_src (sampleBotProps None (js "x"))
           (sampleAgentProps None (js "x")) (js "png")
           (js "FILE-STORAGE::chart.png")); reflexivity.
Defined.

(* ===================================================================== *)
(** ** Feedback: answers, buttons and what is kept *)
(* ===================================================================== *)

Section FeedbackMore.
Import BotBubble.

Lemma removeAt_length {A} (i : nat) (l : list A) : length (removeAt i l) <= length l.
Proof.
  revert i. induction l as [|a l IH]; intro i; [destruct i; cbn; lia|].
  destruct i as [|i]; cbn [removeAt length]; [lia|]. specialize (IH i). lia.
Qed.

Lemma step_rated_idle (s : FeedbackState) (e : Event) (r : FeedbackRatingType) :
  rating s = Some r -> pending s = [] ->
  rating (step s e) = Some r /\ pending (step s e) = [].
Proof.
  intros Hr Hp. destruct e as [| |i response|[|]|]; cbn [step].
  - unfold onThumbsUpClick. rewrite FeedbackFacts.onClick_rated by congruence. now split.
  - unfold onThumbsDownClick. rewrite FeedbackFacts.onClick_rated by congruence. now split.
  - rewrite Hp. destruct i; cbn [nth_error]; now split.
  - now split.
  - now split.
  - now split.
Qed.

Variable props : Props.

(** What holds in every state of a run. *)
Let Inv (s : FeedbackState) : Prop :=
  (rating s = Some THUMBS_UP -> thumbsUpColor s = js "#006400")
  /\ (rating s = Some THUMBS_DOWN -> thumbsDownColor s = js "#8B0000")
  /\ (showFeedbackContentDialog s = true -> rating s <> None)
  /\ rating s = match saved s with
                | [] =>
                    match MessageType.message (message props) with
                    | [] => None
                    | _ :: _ => MessageType.rating (message props)
                    end
                | _ :: _ => Some (last (saved s) THUMBS_UP)
                end.

Lemma Inv_initial : Inv (initialState props).
Proof.
  unfold Inv, initialState, mountRating, createState.
  destruct (MessageType.message (message props));
    [cbn; repeat split; congruence|].
  destruct (MessageType.rating (message props)) as [[|]|]; cbn;
    repeat split; congruence.
Qed.

Lemma Inv_step (s : FeedbackState) (e : Event) : Inv s -> Inv (step s e).
Proof.
  intro H. pose proof H as [Hup [Hdown [Hdialog Hsaved]]].
  destruct e as [| |i response|[|]|]; cbn [step].
  - unfold onThumbsUpClick, onClick. destruct (rating s) eqn:Hr; [exact H|].
    unfold Inv. cbn [rating thumbsUpColor thumbsDownColor showFeedbackContentDialog saved].
    repeat split; try discriminate; assumption.
  - unfold onThumbsDownClick, onClick. destruct (rating s) eqn:Hr; [exact H|].
    unfold Inv. cbn [rating thumbsUpColor thumbsDownColor showFeedbackContentDialog saved].
    repeat split; try discriminate; assumption.
  - destruct (nth_error (pending s) i) as [r|]; [|exact H].
    destruct response as [| |id]; cbn [onAnswer]; [exact H | exact H |].
    unfold Inv. cbn [rating thumbsUpColor thumbsDownColor showFeedbackContentDialog saved].
    repeat split.
    + destruct r; [reflexivity | discriminate].
    + destruct r; [discriminate | reflexivity].
    + discriminate.
    + rewrite last_last. destruct (saved s); reflexivity.
  - unfold Inv. cbn. repeat split; try assumption. discriminate.
  - exact H.
  - unfold Inv. cbn. repeat split; try assumption. discriminate.
Qed.

Lemma Inv_run (es : list Event) :
  forall s, Inv s -> Inv (runEvents s es).
Proof.
  unfold runEvents. induction es as [|e es IH]; intros s H; [exact H|].
  cbn [fold_left]. apply IH. now apply Inv_step.
Qed.

Lemma Inv_reachable (es : list Event) : Inv (runEvents (initialState props) es).
Proof. apply Inv_run, Inv_initial. Qed.

End FeedbackMore.

(** X20: an answer without data, a rejected request and an answer to a
    request that is not pending change none of the signals and save
    nothing: rating, feedback id, dialog and colours stay as they are. *)
Theorem failed_answer_changes_nothing
    (s : BotBubble.FeedbackState) (i : nat) (response : BotBubble.FeedbackResponse) :
  response = BotBubble.Rejected \/ response = BotBubble.NoData
  \/ nth_error (BotBubble.pending s) i = None ->
  let s' := BotBubble.step s (BotBubble.Answer i response) in
  BotBubble.rating s' = BotBubble.rating s
  /\ BotBubble.feedbackId s' = BotBubble.feedbackId s
  /\ BotBubble.showFeedbackContentDialog s' = BotBubble.showFeedbackContentDialog s
  /\ BotBubble.thumbsUpColor s' = BotBubble.thumbsUpColor s
  /\ BotBubble.thumbsDownColor s' = BotBubble.thumbsDownColor s
  /\ BotBubble.saved s' = BotBubble.saved s
  /\ length (BotBubble.pending s') <= length (BotBubble.pending s).
Proof.
  intros H s'. subst s'. cbn [BotBubble.step].
  destruct (nth_error (BotBubble.pending s) i) as [r|] eqn:Hnth.
  - destruct H as [-> | [-> | H]]; [| |discriminate];
      cbn; repeat split; apply removeAt_length.
  - repeat split. lia.
Qed.

Lemma failed_answer_changes_nothing_witness :
  let s := BotBubble.runEvents (BotBubble.initialState (sampleBotProps None (js "hello")))
             [BotBubble.ThumbsUpClick] in
  BotBubble.rating (BotBubble.step s (BotBubble.Answer 0 BotBubble.NoData)) = None.
Proof.
  intro s.
  apply (@failed_answer_changes_nothing s 0 BotBubble.NoData).
  right. left. reflexivity.
Defined.

(** X21: once a rating is set and no request is pending, the rating stays
    the same whatever happens next, and no request is sent any more. *)
Theorem rating_final_when_idle
    (s : BotBubble.FeedbackState) (r : FeedbackRatingType) (es : list BotBubble.Event) :
  BotBubble.rating s = Some r ->
  BotBubble.pending s = [] ->
  BotBubble.rating (BotBubble.runEvents s es) = Some r
  /\ BotBubble.pending (BotBubble.runEvents s es) = [].
Proof.
  revert s. unfold BotBubble.runEvents.
  induction es as [|e es IH]; intros s Hr Hp; [now split|].
  cbn [fold_left]. destruct (step_rated_idle s e Hr Hp) as [Hr' Hp'].
  now apply IH.
Qed.

Lemma rating_final_when_idle_witness :
  let s := BotBubble.runEvents (BotBubble.initialState (sampleBotProps None (js "hello")))
             [BotBubble.ThumbsUpClick; BotBubble.Answer 0 (BotBubble.Data None)] in
  BotBubble.rating
    (BotBubble.runEvents s
       [BotBubble.ThumbsDownClick; BotBubble.Answer 0 (BotBubble.Data None);
        BotBubble.DialogClosed])
  = Some THUMBS_UP.
Proof.
  intro s.
  apply (@rating_final_when_idle s THUMBS_UP
           [BotBubble.ThumbsDownClick; BotBubble.Answer 0 (BotBubble.Data None);
            BotBubble.DialogClosed]); reflexivity.
Defined.

(** X22: in every state of a run, the button of the rating that is set has
    its voted colour (dark green for thumbs up, dark red for thumbs down),
    and the feedback dialog is open only when a rating is set. *)
Theorem voted_colour_and_dialog
    (props : BotBubble.Props) (es : list BotBubble.Event) :
  let s := BotBubble.runEvents (BotBubble.initialState props) es in
  (BotBubble.rating s = Some THUMBS_UP -> BotBubble.thumbsUpColor s = js "#006400")
  /\ (BotBubble.rating s = Some THUMBS_DOWN -> BotBubble.thumbsDownColor s = js "#8B0000")
  /\ (BotBubble.showFeedbackContentDialog s = true -> BotBubble.rating s <> None).
Proof.
  intro s. destruct (Inv_reachable props es) as [Hup [Hdown [Hdialog _]]].
  now repeat split.
Qed.

Lemma voted_colour_and_dialog_witness :
  BotBubble.thumbsDownColor
    (BotBubble.runEvents (BotBubble.initialState (sampleBotProps None (js "hello")))
       [BotBubble.ThumbsDownClick; BotBubble.Answer 0 (BotBubble.Data (Some (js "f7")))])
  = js "#8B0000".
Proof.
  apply (proj1 (proj2 (voted_colour_and_dialog (sampleBotProps None (js "hello"))
           [BotBubble.ThumbsDownClick; BotBubble.Answer 0 (BotBubble.Data (Some (js "f7")))]))).
  reflexivity.
Defined.

(** X23: in every state of a run, the rating shown is the last one handed
    to [saveToLocalStorage]; when none was handed over yet, it is the
    rating the message came with if the text of the message is not empty,
    and no rating if it is empty (the span whose [ref] takes the rating
    over is not rendered then). *)
Theorem rating_is_last_saved
    (props : BotBubble.Props) (es : list BotBubble.Event) :
  let s := BotBubble.runEvents (BotBubble.initialState props) es in
  BotBubble.rating s
  = match BotBubble.saved s with
    | [] =>
        match MessageType.message (BotBubble.message props) with
        | [] => None
        | _ :: _ => MessageType.rating (BotBubble.message props)
        end
    | _ :: _ => Some (last (BotBubble.saved s) THUMBS_UP)
    end.
Proof.
  intro s. now destruct (Inv_reachable props es) as [_ [_ [_ Hsaved]]].
Qed.

(** X24: the thumbs buttons are displayed only under
    [chatFeedbackStatus] and a message id.  Then a button is displayed
    enabled exactly when the rating is empty, and once a rating is set only
    the button of that rating is left, disabled.  The rating is empty
    exactly when a click sends a request, so that a click on an enabled
    button always sends one. *)
Theorem enabled_button_sends_request
    (props : BotBubble.Props) (s : BotBubble.FeedbackState) :
  (BotBubble.thumbsUpButton props s = Some (BotBubble.thumbsUpColor s, false)
   <-> BotBubble.feedbackShown props = true /\ BotBubble.rating s = None)
  /\ (BotBubble.thumbsDownButton props s = Some (BotBubble.thumbsDownColor s, false)
      <-> BotBubble.feedbackShown props = true /\ BotBubble.rating s = None)
  /\ (BotBubble.feedbackShown props = false ->
      BotBubble.thumbsUpButton props s = None
      /\ BotBubble.thumbsDownButton props s = None)
  /\ (BotBubble.rating s = None
      <-> BotBubble.pending (BotBubble.step s BotBubble.ThumbsUpClick)
          = BotBubble.pending s ++ [THUMBS_UP])
  /\ (BotBubble.rating s = None
      <-> BotBubble.pending (BotBubble.step s BotBubble.ThumbsDownClick)
          = BotBubble.pending s ++ [THUMBS_DOWN])
  /\ (BotBubble.feedbackShown props = true ->
      BotBubble.rating s = Some THUMBS_UP ->
      BotBubble.thumbsUpButton props s = Some (BotBubble.thumbsUpColor s, true)
      /\ BotBubble.thumbsDownButton props s = None)
  /\ (BotBubble.feedbackShown props = true ->
      BotBubble.rating s = Some THUMBS_DOWN ->
      BotBubble.thumbsDownButton props s = Some (BotBubble.thumbsDownColor s, true)
      /\ BotBubble.thumbsUpButton props s = None).
Proof.
  assert (Hgrow : forall (l : list FeedbackRatingType) x, l <> l ++ [x]).
  { intros l x H. apply (f_equal (@length _)) in H. rewrite length_app in H.
    simpl in H. lia. }
  unfold BotBubble.thumbsUpButton, BotBubble.thumbsDownButton.
  cbn [BotBubble.step]. unfold BotBubble.onThumbsUpClick, BotBubble.onThumbsDownClick,
    BotBubble.onClick.
  destruct (BotBubble.feedbackShown props);
    destruct (BotBubble.rating s) as [[|]|]; cbn [BotBubble.pending];
    repeat split; intros; try tauto; try congruence; try discriminate;
    try (exfalso; eapply Hgrow; eassumption);
    try (match goal with H : _ /\ _ |- _ => destruct H; congruence end).
Qed.

Lemma enabled_button_sends_request_witness :
  let props := sampleBotProps None (js "hello") in
  let s := BotBubble.runEvents (BotBubble.initialState props)
             [BotBubble.ThumbsUpClick; BotBubble.Answer 0 (BotBubble.Data None)] in
  BotBubble.thumbsUpButton props s = Some (js "#006400", true)
  /\ BotBubble.thumbsDownButton props s = None.
Proof.
  intros props s.
  apply (proj1 (proj2 (proj2 (proj2 (proj2 (proj2
           (enabled_button_sends_request props s))))))); reflexivity.
Defined.

(* ===================================================================== *)
(** ** The rating kept in local storage *)
(* ===================================================================== *)

Lemma rateFound_first (id : option jsstring) (r : FeedbackRatingType)
    (pre : list MessageType.t) (m : MessageType.t) (post : list MessageType.t) :
  Forall (fun x => BotBubble.sameId (MessageType.messageId x) id = false) pre ->
  BotBubble.sameId (MessageType.messageId m) id = true ->
  BotBubble.rateFound id r (pre ++ m :: post)
  = Some (pre ++ BotBubble.withRating m r :: post).
Proof.
  intros Hpre Hm. induction Hpre as [|x pre Hx Hpre IH];
    cbn [app BotBubble.rateFound].
  - now rewrite Hm.
  - now rewrite Hx, IH.
Qed.

Lemma rateFound_none (id : option jsstring) (r : FeedbackRatingType)
    (messages : list MessageType.t) :
  Forall (fun x => BotBubble.sameId (MessageType.messageId x) id = false) messages ->
  BotBubble.rateFound id r messages = None.
Proof.
  intro H. induction H as [|x l Hx Hl IH]; cbn [BotBubble.rateFound]; [reflexivity|].
  now rewrite Hx, IH.
Qed.

(** X25: [saveToLocalStorage] touches the entry of this chatflow only.  It
    leaves the entry as it is when it is missing or empty, when it is not
    JSON and when its history holds no message with the id of the message;
    otherwise it writes the details back with the rating set on the first
    message that has the id, every other message and the rest of the
    details unchanged. *)
Theorem saveToLocalStorage_first_match
    (JSON_parse : jsstring -> Result BotBubble.ChatDetails)
    (JSON_stringify : BotBubble.ChatDetails -> jsstring)
    (props : BotBubble.Props) (r : FeedbackRatingType) (storage : BotBubble.Storage) :
  let key := BotBubble.storageKey props in
  let id := MessageType.messageId (BotBubble.message props) in
  let noMatch := fun x => BotBubble.sameId (MessageType.messageId x) id = false in
  let storage' :=
    BotBubble.saveToLocalStorage JSON_parse JSON_stringify props r storage in
  (forall k, jsstring_eqb k key = false -> storage' k = storage k)
  /\ (storage key = None \/ storage key = Some []
      \/ (exists text e, storage key = Some text /\ JSON_parse text = inl e)
      \/ (exists text details, storage key = Some text
            /\ JSON_parse text = inr details
            /\ Forall noMatch (nullish (BotBubble.chatHistory details) [])) ->
      forall k, storage' k = storage k)
  /\ (forall text details pre m post,
        storage key = Some text -> text <> [] ->
        JSON_parse text = inr details ->
        BotBubble.chatHistory details = Some (pre ++ m :: post) ->
        Forall noMatch pre ->
        BotBubble.sameId (MessageType.messageId m) id = true ->
        storage' key
        = Some (JSON_stringify
                  {| BotBubble.chatHistory :=
                       Some (pre ++ BotBubble.withRating m r :: post);
                     BotBubble.otherDetails := BotBubble.otherDetails details |})).
Proof.
  intros key id noMatch storage'. subst storage'.
  unfold BotBubble.saveToLocalStorage. fold key id. split; [|split].
  - intros k Hk.
    destruct (storage key) as [[|c text]|]; try reflexivity.
    destruct (JSON_parse (c :: text)) as [e|details]; [reflexivity|].
    destruct (BotBubble.rateFound id r _); [|reflexivity].
    unfold BotBubble.setItem. now rewrite Hk.
  - intros H k.
    destruct H as [-> | [-> | [[text [e [-> Hparse]]] | [text [details [-> [Hparse Hnone]]]]]]];
      try reflexivity.
    + destruct text; [reflexivity|]. now rewrite Hparse.
    + destruct text; [reflexivity|]. rewrite Hparse.
      now rewrite (@rateFound_none id r _ Hnone).
  - intros text details pre m post -> Htext Hparse Hhistory Hpre Hm.
    destruct text as [|c text]; [congruence|].
    rewrite Hparse, Hhistory. cbn [nullish].
    rewrite (@rateFound_first id r pre m post Hpre Hm).
    unfold BotBubble.setItem. now rewrite jsstring_eqb_refl.
Qed.

Lemma saveToLocalStorage_first_match_witness :
  BotBubble.saveToLocalStorage sampleParseJSON sampleStringifyJSON
    (sampleBotProps None (js "hello")) THUMBS_UP sampleStorage (js "cf_EXTERNAL")
  = Some (js "rated:.+.").
Proof.
  apply (proj2 (proj2 (@saveToLocalStorage_first_match sampleParseJSON sampleStringifyJSON
           (sampleBotProps None (js "hello")) THUMBS_UP sampleStorage))
         (js "chat")
         {| BotBubble.chatHistory := Some sampleHistory;
            BotBubble.otherDetails := js "chatId" |}
         [sampleMessage (Some (js "m0")) (js "hi")]
         (sampleMessage (Some (js "m1")) (js "hello"))
         [sampleMessage (Some (js "m1")) (js "hello again")]);
    try reflexivity; [discriminate | repeat constructor].
Defined.

(* ===================================================================== *)
(** ** Source bubbles and agent messages *)
(* ===================================================================== *)

Lemma sourceBubbles_opened (newURL : jsstring -> Result BotBubble.URL)
    (l : list BotBubble.SourceDocument) :
  flat_map (fun b => match snd b with
                     | BotBubble.WindowOpen url _ => [url]
                     | BotBubble.HandleSourceDocumentsClick _ => []
                     end)
    (map (BotBubble.sourceBubble newURL) l)
  = map sourceOf (filter (hasValidURL newURL) l).
Proof.
  induction l as [|src l IH]; [reflexivity|].
  cbn [map flat_map filter]. rewrite IH.
  unfold BotBubble.sourceBubble, hasValidURL, sourceOf.
  destruct (BotBubble.isValidURL newURL (BotBubble.source (BotBubble.metadata src)));
    reflexivity.
Qed.

(** X26: no two source bubbles open the same URL: the URLs that the
    bubbles of a message open in a new tab are pairwise different, and they
    are the valid sources of the documents kept by [removeDuplicateURL]. *)
Theorem source_bubbles_open_distinct
    (newURL : jsstring -> Result BotBubble.URL)
    (sourceDocuments : list BotBubble.SourceDocument) :
  let opened :=
    flat_map (fun b => match snd b with
                       | BotBubble.WindowOpen url _ => [url]
                       | BotBubble.HandleSourceDocumentsClick _ => []
                       end)
      (BotBubble.sourceBubbles newURL sourceDocuments) in
  NoDup opened
  /\ forall d, In d sourceDocuments -> hasValidURL newURL d = true ->
               In (sourceOf d) opened.
Proof.
  intro opened. subst opened. unfold BotBubble.sourceBubbles.
  rewrite sourceBubbles_opened. split; [apply forEach_valid_once|].
  intros d Hin Hvalid.
  destruct (proj1 (@forEach_represented newURL sourceDocuments [] d Hin) Hvalid eq_refl)
    as [d' [Hd' Hsame]].
  rewrite <- Hsame. apply in_map. apply filter_In. split; [exact Hd'|].
  unfold hasValidURL, sourceOf in *. now rewrite Hsame.
Qed.

Lemma source_bubbles_open_distinct_witness :
  In (js "https://example.com/a")
    (flat_map (fun b => match snd b with
                        | BotBubble.WindowOpen url _ => [url]
                        | BotBubble.HandleSourceDocumentsClick _ => []
                        end)
       (BotBubble.sourceBubbles sampleNewURL sampleSources)).
Proof.
  apply (proj2 (source_bubbles_open_distinct sampleNewURL sampleSources)
           (sampleSource (js "https://example.com/a") (js "second"))).
  - right. right. left. reflexivity.
  - reflexivity.
Defined.

(** X27: the message handed to [AgentReasoningBubble] is always defined:
    the instructions when they are not empty; otherwise [<p>Finished</p>]
    when the agent has no message, its only message when it has one, and
    its messages joined when it has several. *)
Theorem agent_message_defined (agent : BotBubble.AgentReasoning) :
  exists text,
    BotBubble.msgContent agent = Some text
    /\ (BotBubble.truthyString (BotBubble.instructions agent) = true ->
        BotBubble.instructions agent = Some text)
    /\ (BotBubble.truthyString (BotBubble.instructions agent) = false ->
        match nullish (BotBubble.messages agent) [] with
        | [] => text = js "<p>Finished</p>"
        | [m] => text = m
        | m :: rest => text = m ++ [92; 110]%N ++ BotBubble.join [92; 110]%N rest
        end).
Proof.
  unfold BotBubble.msgContent. cbv zeta.
  destruct (BotBubble.instructions agent) as [[|c s]|];
    cbn [BotBubble.truthyString negb andb].
  - destruct (nullish (BotBubble.messages agent) []) as [|m [|m' rest]];
      cbn; eexists; (split; [reflexivity | split; [discriminate | reflexivity]]).
  - rewrite andb_false_r. eexists. split; [reflexivity|]. split; [reflexivity | discriminate].
  - destruct (nullish (BotBubble.messages agent) []) as [|m [|m' rest]];
      cbn; eexists; (split; [reflexivity | split; [discriminate | reflexivity]]).
Qed.

Lemma agent_message_defined_witness :
  BotBubble.msgContent {| BotBubble.instructions := Some []; BotBubble.messages := None |}
  = Some (js "<p>Finished</p>").
Proof.
  destruct (agent_message_defined
              {| BotBubble.instructions := Some []; BotBubble.messages := None |})
    as [text [Htext [_ Hcases]]].
  rewrite Htext. f_equal. now apply Hcases.
Defined.

(* ===================================================================== *)
(** ** Every placeholder replaced by the key *)
(* ===================================================================== *)

Lemma interleave_cons (filler segment : jsstring) (rest : list jsstring) :
  rest <> [] ->
  interleave filler (segment :: rest) = segment ++ filler ++ interleave filler rest.
Proof. destruct rest; [congruence | reflexivity]. Qed.

Lemma interleave_head (filler : jsstring) (c : N) (segment : jsstring)
    (rest : list jsstring) :
  c :: interleave filler (segment :: rest) = interleave filler ((c :: segment) :: rest).
Proof. destruct rest; reflexivity. Qed.

Lemma interleave_starts (filler segment : jsstring) (rest : list jsstring) :
  exists t, interleave filler (segment :: rest) = segment ++ t.
Proof.
  destruct rest as [|segment' rest].
  - exists []. cbn. now rewrite app_nil_r.
  - now exists (filler ++ interleave filler (segment' :: rest)).
Qed.

Section Segments.

Variable replacement : jsstring.
Variable p : N.
Variable ps : jsstring.
Hypothesis plain : existsb (N.eqb 36) replacement = false.

Let pat := p :: ps.
Let R (x : jsstring) : jsstring := replaceAllFrom [] pat replacement 0 x.

(** The scan cuts its input at the occurrences it replaces: the input is
    a list of segments free of the pattern with the pattern in between,
    the output the same segments with the replacement in between. *)
Lemma replaceAllFrom_segments (n : nat) :
  forall rest, length rest <= n ->
    exists segment segments,
      rest = interleave pat (segment :: segments)
      /\ R rest = interleave replacement (segment :: segments)
      /\ Forall (fun seg => includes seg pat = false) (segment :: segments).
Proof using plain.
  induction n as [|n IH]; intros rest Hlen.
  - destruct rest; [|simpl in Hlen; lia].
    exists [], []. repeat split. now constructor.
  - destruct rest as [|c rest].
    + exists [], []. repeat split. now constructor.
    + pose proof (@R_cons replacement p ps plain c rest) as Hcons.
      fold pat in Hcons. fold (R (c :: rest)) in Hcons.
      destruct (startsWith (c :: rest) pat) eqn:Hhere.
      * assert (Hshort : length (skipn (length ps) rest) <= n)
          by (rewrite length_skipn; simpl in Hlen; lia).
        destruct (IH _ Hshort) as [s0 [segs [Hin [Hout Hfree]]]].
        exists [], (s0 :: segs). repeat split.
        -- rewrite interleave_cons by discriminate. cbn [app].
           rewrite <- Hin. apply (startsWith_split _ _ Hhere).
        -- rewrite interleave_cons by discriminate. cbn [app].
           rewrite <- Hout. exact Hcons.
        -- constructor; [reflexivity | exact Hfree].
      * assert (Hshort : length rest <= n) by (simpl in Hlen; lia).
        destruct (IH _ Hshort) as [s0 [segs [Hin [Hout Hfree]]]].
        exists (c :: s0), segs. repeat split.
        -- rewrite <- interleave_head. now rewrite <- Hin.
        -- rewrite <- interleave_head. rewrite <- Hout. exact Hcons.
        -- apply Forall_cons_iff in Hfree as [Hs0 Hsegs].
           constructor; [|exact Hsegs].
           cbn [includes]. rewrite Hs0, orb_false_r.
           destruct (startsWith (c :: s0) pat) eqn:Hstart; [|reflexivity].
           destruct (interleave_starts pat s0 segs) as [t Ht].
           rewrite Hin, Ht in Hhere.
           pose proof (startsWith_app_l (c :: s0) t pat Hstart) as Hext.
           cbn [app] in Hext. congruence.
Qed.

End Segments.

(** [replaceMapKey] puts the key in the place of every placeholder and
    leaves the rest as it is. *)
Lemma replaceMapKey_segments (s : jsstring) :
  exists segments,
    s = interleave mapKeyPlaceholder segments
    /\ replaceMapKey s = interleave mapKey segments
    /\ Forall (fun seg => includes seg mapKeyPlaceholder = false) segments.
Proof.
  destruct (@replaceAllFrom_segments (js "abc") 71%N (js "OOGLE_MAP_KEY") eq_refl
              (length s) s (le_n _)) as [s0 [segs [Hin [Hout Hfree]]]].
  exists (s0 :: segs). rewrite replaceMapKey_scan. now repeat split.
Qed.

(** C5: the document written into the iframe holds no occurrence of the
    placeholder [GOOGLE_MAP_KEY]: it is the content with the stylesheet, cut
    at every placeholder, with the key [abc] in the place of each of them
    and every other part as it was; the same holds of the content itself.
    That document is what the deferred write hands to the iframe, and
    nothing is written when the iframe has no document. *)
Theorem iframe_document_without_placeholder (messageContent : jsstring) :
  includes (modifiedContent messageContent) mapKeyPlaceholder = false
  /\ (exists segments,
        insertCssOverride messageContent = interleave mapKeyPlaceholder segments
        /\ modifiedContent messageContent = interleave mapKey segments
        /\ Forall (fun seg => includes seg mapKeyPlaceholder = false) segments)
  /\ (exists segments,
        messageContent = interleave mapKeyPlaceholder segments
        /\ replaceMapKey messageContent = interleave mapKey segments
        /\ Forall (fun seg => includes seg mapKeyPlaceholder = false) segments)
  /\ forall iframeDoc probe,
       run (runDeferred iframeDoc probe (WriteIframe messageContent))
       = (if iframeDoc
          then [IframeWrite (modifiedContent messageContent);
                SetTimeout ResizeIframe 2000]
          else [], inr tt).
Proof.
  split; [|split; [|split]].
  - unfold modifiedContent, replaceMapKey. fold mapKeyPlaceholder.
    destruct (includes (insertCssOverride messageContent) mapKeyPlaceholder) eqn:H.
    + apply (@replaceAll_clean _ (js "abc") 71%N (js "OOGLE_MAP_KEY"));
        [reflexivity | discriminate | reflexivity].
    + exact H.
  - apply (replaceMapKey_segments (insertCssOverride messageContent)).
  - apply replaceMapKey_segments.
  - intros [|] probe; reflexivity.
Qed.

Example replaceMapKey_ex :
  replaceMapKey (js "a=GOOGLE_MAP_KEY&b=GOOGLE_MAP_KEYGOOGLE_MAP_KEY;")
  = js "a=abc&b=abcabc;"
  /\ js "a=GOOGLE_MAP_KEY&b=GOOGLE_MAP_KEYGOOGLE_MAP_KEY;"
     = interleave mapKeyPlaceholder [js "a="; js "&b="; []; js ";"].
Proof. split; reflexivity. Qed.

(** A message with a rating and an empty text: its span is not rendered, so
    the rating is not taken over. *)
Example empty_message_unrated_ex :
  BotBubble.rating
    (BotBubble.initialState
       {| BotBubble.message :=
            {| MessageType.message := []; MessageType.messageId := Some (js "m1");
               MessageType.rating := Some THUMBS_UP; MessageType.artifacts := None |};
          BotBubble.chatflowid := js "cf";
          BotBubble.chatId := js "c1";
          BotBubble.apiHost := None;
          BotBubble.fileAnnotations := None;
          BotBubble.textColor := None;
          BotBubble.chatFeedbackStatus := Some true;
          BotBubble.feedbackColor := None;
          BotBubble.renderHTML := None |})
  = None.
Proof. reflexivity. Qed.
